(** * Process supervision core of NGINX Unit: [src/nxt_process.c]

    A shallow embedding of the process-creation, bootstrap, credential and
    port-bookkeeping routines of [nxt_process.c], together with the
    properties of them that the design document states.

    The C code talks to the operating system and to other parts of the
    server through calls whose bodies are elsewhere.  They are modelled by a
    [world]: the part of the machine the routines can observe or change,
    a [trace] of the calls made so far, and a fault schedule telling which
    invocation of which call is refused.  Every routine is a function in
    the monad [M] over that world; [exit()] is an outcome of the monad. *)

From stdpp Require Import gmap strings list fin_maps.
From Stdlib Require Import ZArith Lia.

Local Open Scope Z_scope.

(** ** Constants *)

(** Modelled from the spec: the status codes are macros of a header that
    is not part of this file; success is 0 and failure is -1. *)
Definition NXT_OK : Z := 0.
Definition NXT_ERROR : Z := -1.

Definition STDIN_FILENO : Z := 0.
Definition STDOUT_FILENO : Z := 1.
Definition STDERR_FILENO : Z := 2.

(** Modelled from the spec: the structures are declared in headers that
    are not part of this file; the reference count [port_cleanups] and the
    bitmap [types] are taken as 32-bit unsigned. *)
Definition wrap32 (z : Z) : Z := z mod 2 ^ 32.

Inductive log_level :=
  | NXT_LOG_CRIT | NXT_LOG_ERR | NXT_LOG_INFO.

(** ** Data model

    The structures are declared in headers that are not part of this
    file.  The records below keep the fields [nxt_process.c] reads or
    writes, under the names it uses. *)

(** [nxt_user_cred_t].  [gids] is a pointer in C: [None] is [NULL],
    [Some buf] an allocated array. *)
Record nxt_user_cred_t := mk_cred {
  user : string;
  uid : Z;
  base_gid : Z;
  gids : option (list Z);
  ngroups : Z
}.

(** [nxt_process_init_t]; the entry point [start], its [data], the signal
    set and the handler table are opaque handles. *)
Record nxt_process_init_t := mk_init {
  name : string;
  user_cred : option nxt_user_cred_t;
  type : Z;
  signals : Z;
  start : Z;
  data : Z;
  stream : Z;
  port_handlers : Z
}.

(** [nxt_process_t].  Records live in the heap of the world and are named
    by their address; [ports] is the queue of port addresses, head first;
    [incoming] and [outgoing] are the arrays of shared-memory mappings. *)
Record nxt_process_t := mk_process {
  pid : Z;
  ports : list Z;
  ready : bool;
  port_cleanups : Z;
  init : nxt_process_init_t;
  incoming : list Z;
  outgoing : list Z
}.

(** [nxt_port_t]: the fields [nxt_process_port_add] touches. *)
Record nxt_port_t := mk_port {
  process : option Z;
  mem_pool : Z
}.

(** A cleanup registered on a memory pool: the handler and its object
    (the handler's data is always the one runtime of the world). *)
Inductive mp_handler := process_port_mp_cleanup_handler.

Record mp_cleanup := mk_cleanup {
  cl_handler : mp_handler;
  cl_obj : Z
}.

(** [nxt_runtime_t]: the process table maps a pid to the address of its
    record. *)
Record nxt_runtime_t := mk_runtime {
  types : Z;
  processes : gmap Z Z;
  engine : string;
  batch : Z;
  auxiliary_threads : Z;
  main_port : Z
}.

(** ** Calls leaving [nxt_process.c] *)

(** The calls that can be refused, by name. *)
Inductive sys :=
  | SFork | SSetsid | SOpen | SDup2
  | SGetpwnam | SGetgrnam
  | SGetgroups | SInitgroups | SSetgroups | SSetgid | SSetuid
  | SMalloc
  | SServiceGet | SEngineChange | SThreadPoolCreate | SStart
  | SPortSocketWrite.

#[global] Instance sys_eq_dec : EqDecision sys.
Proof. solve_decision. Defined.

(** A call with its arguments. *)
Inductive call :=
  | Fork
  | Setsid
  | Umask (mask : Z)
  | Open (path : string)
  | Dup2 (oldfd newfd : Z)
  | Close (fd : Z)
  | Getpwnam (nm : string)
  | Getgrnam (nm : string)
  | Getgroups (size : Z)
  | Initgroups (nm : string) (gid : Z)
  | Setgroups (gs : list Z)
  | Setgid (gid : Z)
  | Setuid (u : Z)
  | Malloc (cells : Z)
  | Free
  | ProcessTitle (nm : string)
  | RandomInit
  | PortResetNextId
  | EngineThreadAdopt
  | ServiceGet (nm : string)
  | EngineChange (batch : Z)
  | ThreadPoolCreate (threads timeout : Z)
  | PortReadClose (port : Z)
  | PortWriteEnable (port : Z)
  | PortWriteClose (port : Z)
  | Start (entry data : Z)
  | PortEnable (port handlers : Z)
  | PortSocketWrite (port : Z) (stream : Z)
  | PortMmapsDestroy (maps : list Z)
  | RuntimeProcessAdd (p : Z)
  | RuntimeProcessRemove (p : Z)
  | MpCleanup (pool : Z) (obj : Z) (seen_cleanups : Z).

Definition kind_of (c : call) : option sys :=
  match c with
  | Fork => Some SFork
  | Setsid => Some SSetsid
  | Open _ => Some SOpen
  | Dup2 _ _ => Some SDup2
  | Getpwnam _ => Some SGetpwnam
  | Getgrnam _ => Some SGetgrnam
  | Getgroups _ => Some SGetgroups
  | Initgroups _ _ => Some SInitgroups
  | Setgroups _ => Some SSetgroups
  | Setgid _ => Some SSetgid
  | Setuid _ => Some SSetuid
  | Malloc _ => Some SMalloc
  | ServiceGet _ => Some SServiceGet
  | EngineChange _ => Some SEngineChange
  | ThreadPoolCreate _ _ => Some SThreadPoolCreate
  | Start _ _ => Some SStart
  | PortSocketWrite _ _ => Some SPortSocketWrite
  | _ => None
  end.

(** Messages of the [nxt_log] calls, with their arguments. *)
Inductive log_msg :=
  | MsgForkFailed (nm : string) (err : Z)
  | MsgStarted (nm : string)
  | MsgReadyFailed
  | MsgDaemonFailed (step : call) (err : Z)
  | MsgSetsidFailed (err : Z)
  | MsgUserNotFound (nm : string)
  | MsgGetpwnamFailed (nm : string) (err : Z)
  | MsgGroupNotFound (nm : string)
  | MsgGetgrnamFailed (nm : string) (err : Z)
  | MsgGetgroupsFailed (size : Z) (err : Z)
  | MsgInitgroupsFailed (nm : string) (gid : Z)
  | MsgSetgroupsFailed (n : Z) (err : Z)
  | MsgSetgidFailed (gid : Z) (err : Z)
  | MsgSetuidFailed (u : Z) (err : Z).

Inductive event :=
  | EvCall (c : call) (ret : Z)
  | EvLog (l : log_level) (m : log_msg).

(** ** The world *)

(** Which continuation of [fork()] the execution follows. *)
Inductive fork_side :=
  | Parent (child : positive)
  | Child (self : positive).

Record passwd := mk_passwd { pw_uid : Z; pw_gid : Z }.
Record group := mk_group { gr_gid : Z; gr_mem : list string }.

(** What never changes during a run: the account databases, the fault
    schedule ([(k, n, e)]: invocation number [n] of call [k], counted from
    zero, fails with [errno] [e]), the side of [fork()] followed, and the
    platform's [NGROUPS_MAX]. *)
Record environ := mk_environ {
  e_passwd : list (string * passwd);
  e_group : list (string * group);
  e_faults : list (sys * nat * Z);
  e_fork : fork_side;
  NGROUPS_MAX : Z
}.

(** The process as the kernel sees it. *)
Record os_state := mk_os {
  os_pid : Z;
  os_uid : Z;
  os_gid : Z;
  os_groups : list Z;
  os_umask : Z;
  os_session_leader : bool;
  os_fds : gmap Z string;
  os_errno : Z
}.

(** The server's own memory: the cached pid, the thread's cached tid, the
    engine's signal set, the runtime, and the heaps of process records,
    ports and pool cleanup lists. *)
Record nxt_state := mk_nxt {
  nxt_pid : Z;
  tid : Z;
  sigev : Z;
  rt : nxt_runtime_t;
  procs : gmap Z nxt_process_t;
  port_heap : gmap Z nxt_port_t;
  pools : gmap Z (list mp_cleanup)
}.

Record world := mk_world {
  env : environ;
  trace : list event;
  os : os_state;
  nxt : nxt_state
}.

Definition with_trace (t : list event) (w : world) : world :=
  mk_world (env w) t (os w) (nxt w).
Definition with_os (o : os_state) (w : world) : world :=
  mk_world (env w) (trace w) o (nxt w).
Definition with_nxt (n : nxt_state) (w : world) : world :=
  mk_world (env w) (trace w) (os w) n.

Definition emit (e : event) (w : world) : world :=
  with_trace (trace w ++ [e]) w.

(** Number of invocations of call [k] made so far. *)
Definition is_kind (k : sys) (e : event) : bool :=
  match e with
  | EvCall c _ => bool_decide (kind_of c = Some k)
  | EvLog _ _ => false
  end.

Definition invocations (k : sys) (w : world) : nat :=
  length (filter (fun e => is_kind k e = true) (trace w)).

Fixpoint find_fault (k : sys) (n : nat) (fs : list (sys * nat * Z)) : option Z :=
  match fs with
  | [] => None
  | (k', n', e) :: fs' =>
      if bool_decide (k' = k) && (n' =? n)%nat then Some e else find_fault k n fs'
  end.

(** The [errno] with which the next invocation of [k] fails, if it does. *)
Definition fault_of (k : sys) (w : world) : option Z :=
  find_fault k (invocations k w) (e_faults (env w)).

(** ** The monad: a state over the world that can leave through [exit()] *)

Inductive outcome (A : Type) :=
  | Ret (a : A)
  | Exited (status : Z)
  | Stuck.
Arguments Ret {A} a.
Arguments Exited {A} status.
Arguments Stuck {A}.

Definition M (A : Type) : Type := world -> outcome A * world.

Definition ret {A} (a : A) : M A := fun w => (Ret a, w).

Definition bind {A B} (m : M A) (k : A -> M B) : M B := fun w =>
  match m w with
  | (Ret a, w') => k a w'
  | (Exited s, w') => (Exited s, w')
  | (Stuck, w') => (Stuck, w')
  end.

Declare Scope proc_scope.
Delimit Scope proc_scope with proc.
Notation "x <- m ;; k" := (bind m (fun x => k))
  (at level 100, m at next level, k at level 200, right associativity) : proc_scope.
Notation "m ;; k" := (bind m (fun _ => k))
  (at level 100, k at level 200, right associativity) : proc_scope.
Local Open Scope proc_scope.

(** [exit(status)] *)
Definition exit {A} (status : Z) : M A := fun w => (Exited status, w).

(** Dereferencing an address that holds no object. *)
Definition stuck {A} : M A := fun w => (Stuck, w).

Definition gets {A} (f : world -> A) : M A := fun w => (Ret (f w), w).
Definition modify (f : world -> world) : M unit := fun w => (Ret tt, f w).

Definition nxt_log (l : log_level) (m : log_msg) : M unit :=
  modify (emit (EvLog l m)).

Definition called (c : call) (r : Z) : M unit := modify (emit (EvCall c r)).

Definition set_errno (e : Z) (w : world) : world :=
  let o := os w in
  with_os (mk_os (os_pid o) (os_uid o) (os_gid o) (os_groups o) (os_umask o)
                 (os_session_leader o) (os_fds o) e) w.

Definition nxt_errno : M Z := gets (fun w => os_errno (os w)).

(** Whether the schedule refuses this invocation of [c]; a refused call
    sets [errno] and has no other effect. *)
Definition refused (c : call) : M bool := fun w =>
  match kind_of c ≫= (fun k => fault_of k w) with
  | Some e => (Ret true, set_errno e w)
  | None => (Ret false, w)
  end.

(** A call that only returns a status: [failv] when refused, else the
    effect [eff] takes place and [okv] is returned. *)
Definition invoke (c : call) (failv okv : Z) (eff : world -> world) : M Z :=
  bad <- refused c;;
  if (bad : bool) then called c failv;; ret failv
  else modify eff;; called c okv;; ret okv.

(** A call without a result that cannot be refused. *)
Definition perform (c : call) : M unit := called c 0.

(** ** The operating system *)

Definition set_groups (gs : list Z) (w : world) : world :=
  let o := os w in
  with_os (mk_os (os_pid o) (os_uid o) (os_gid o) gs (os_umask o)
                 (os_session_leader o) (os_fds o) (os_errno o)) w.

Definition set_gid (g : Z) (w : world) : world :=
  let o := os w in
  with_os (mk_os (os_pid o) (os_uid o) g (os_groups o) (os_umask o)
                 (os_session_leader o) (os_fds o) (os_errno o)) w.

Definition set_uid (u : Z) (w : world) : world :=
  let o := os w in
  with_os (mk_os (os_pid o) u (os_gid o) (os_groups o) (os_umask o)
                 (os_session_leader o) (os_fds o) (os_errno o)) w.

Definition getuid : M Z := gets (fun w => os_uid (os w)).

Fixpoint assoc {A} (k : string) (l : list (string * A)) : option A :=
  match l with
  | [] => None
  | (k', a) :: l' => if String.eqb k' k then Some a else assoc k l'
  end.

(** [getpwnam()]: [None] is a [NULL] result; [errno] is left alone when
    the name is simply unknown. *)
Definition getpwnam (nm : string) : M (option passwd) :=
  bad <- refused (Getpwnam nm);;
  if (bad : bool) then called (Getpwnam nm) 0;; ret None
  else
    r <- gets (fun w => assoc nm (e_passwd (env w)));;
    called (Getpwnam nm) (if r is Some _ then 1 else 0);;
    ret r.

Definition getgrnam (nm : string) : M (option group) :=
  bad <- refused (Getgrnam nm);;
  if (bad : bool) then called (Getgrnam nm) 0;; ret None
  else
    r <- gets (fun w => assoc nm (e_group (env w)));;
    called (Getgrnam nm) (if r is Some _ then 1 else 0);;
    ret r.

(** The group access list [initgroups(nm, gid)] computes: [gid] and every
    group of the database that lists [nm] as a member. *)
Definition grouplist (nm : string) (gid : Z) (db : list (string * group)) : list Z :=
  gid :: filter (fun g => g ≠ gid)
           ((fun e => gr_gid e.2) <$>
              filter (fun e => nm ∈ gr_mem e.2) db).

Definition initgroups (nm : string) (gid : Z) : M Z :=
  invoke (Initgroups nm gid) (-1) 0
         (fun w => set_groups (grouplist nm gid (e_group (env w))) w).

(** [setgroups(n, gs)] installs the first [n] cells of [gs]. *)
Definition setgroups (n : Z) (gs : list Z) : M Z :=
  let l := take (Z.to_nat n) gs in
  invoke (Setgroups l) (-1) 0 (set_groups l).

Definition setgid (g : Z) : M Z := invoke (Setgid g) (-1) 0 (set_gid g).
Definition setuid (u : Z) : M Z := invoke (Setuid u) (-1) 0 (set_uid u).

(** [getgroups(size, buf)]: with [size = 0] only the number of groups is
    returned; otherwise the list is stored at the start of [buf], unless
    [size] is too small.  The result is the return value and the buffer. *)
Definition getgroups (size : Z) (buf : list Z) : M (Z * list Z) :=
  bad <- refused (Getgroups size);;
  gs <- gets (fun w => os_groups (os w));;
  let n := Z.of_nat (length gs) in
  if (bad : bool) || ((0 <? size) && (size <? n)) then
    called (Getgroups size) (-1);; ret (-1, buf)
  else
    called (Getgroups size) n;;
    ret (n, if size =? 0 then buf else gs ++ drop (length gs) buf).

(** [nxt_malloc()] of an array of [cells] group ids; the content of fresh
    memory is indeterminate and stands here as zeros. *)
Definition nxt_malloc (cells : Z) : M (option (list Z)) :=
  bad <- refused (Malloc cells);;
  if (bad : bool) then called (Malloc cells) 0;; ret None
  else called (Malloc cells) 1;; ret (Some (replicate (Z.to_nat cells) 0)).

Definition nxt_free : M unit := perform Free.

(** ** Credentials *)

Definition cred_set_ids (u g : Z) (uc : nxt_user_cred_t) : nxt_user_cred_t :=
  mk_cred (user uc) u g (gids uc) (ngroups uc).
Definition cred_set_base_gid (g : Z) (uc : nxt_user_cred_t) : nxt_user_cred_t :=
  mk_cred (user uc) (uid uc) g (gids uc) (ngroups uc).
Definition cred_set_gids (b : option (list Z)) (uc : nxt_user_cred_t) : nxt_user_cred_t :=
  mk_cred (user uc) (uid uc) (base_gid uc) b (ngroups uc).
Definition cred_set_ngroups (n : Z) (uc : nxt_user_cred_t) : nxt_user_cred_t :=
  mk_cred (user uc) (uid uc) (base_gid uc) (gids uc) n.

(** The [restore:] and [fail:] labels of [nxt_user_groups_get]: put the
    saved list back, turn [ret] into an error if that fails, free. *)
Definition groups_restore (ret0 : Z) (nsaved : Z) (saved : list Z)
    (uc : nxt_user_cred_t) : M (Z * nxt_user_cred_t) :=
  r <- setgroups nsaved saved;;
  ret1 <- (if r =? 0 then ret ret0
           else e <- nxt_errno;;
                nxt_log NXT_LOG_CRIT (MsgSetgroupsFailed nsaved e);;
                ret NXT_ERROR);;
  nxt_free;;
  ret (ret1, uc).

(** [nxt_user_groups_get(task, uc)].  The credential is changed in place
    in C; here the final credential is returned with the status. *)
Definition nxt_user_groups_get (uc : nxt_user_cred_t) : M (Z * nxt_user_cred_t) :=
  r <- getgroups 0 [];;
  let nsaved := r.1 in
  if nsaved =? -1 then
    e <- nxt_errno;;
    nxt_log NXT_LOG_CRIT (MsgGetgroupsFailed 0 e);;
    ret (NXT_ERROR, uc)
  else
  max <- gets (fun w => NGROUPS_MAX (env w));;
  if nsaved >? max then
    (* MacOSX case. *)
    ret (NXT_OK, uc)
  else
  saved <- nxt_malloc nsaved;;
  match saved with
  | None => ret (NXT_ERROR, uc)
  | Some saved =>
  r <- getgroups nsaved saved;;
  let nsaved := r.1 in
  let saved := r.2 in
  if nsaved =? -1 then
    e <- nxt_errno;;
    nxt_log NXT_LOG_CRIT (MsgGetgroupsFailed nsaved e);;
    nxt_free;;
    ret (NXT_ERROR, uc)
  else
  r <- initgroups (user uc) (base_gid uc);;
  if negb (r =? 0) then
    nxt_log NXT_LOG_CRIT (MsgInitgroupsFailed (user uc) (base_gid uc));;
    groups_restore NXT_ERROR nsaved saved uc
  else
  r <- getgroups 0 [];;
  let ngroups := r.1 in
  if ngroups =? -1 then
    e <- nxt_errno;;
    nxt_log NXT_LOG_CRIT (MsgGetgroupsFailed 0 e);;
    groups_restore NXT_ERROR nsaved saved uc
  else
  buf <- nxt_malloc ngroups;;
  let uc := cred_set_gids buf uc in
  match buf with
  | None => groups_restore NXT_ERROR nsaved saved uc
  | Some buf =>
  r <- getgroups ngroups buf;;
  let ngroups := r.1 in
  let uc := cred_set_gids (Some r.2) uc in
  if ngroups =? -1 then
    e <- nxt_errno;;
    nxt_log NXT_LOG_CRIT (MsgGetgroupsFailed ngroups e);;
    groups_restore NXT_ERROR nsaved saved uc
  else
  let uc := cred_set_ngroups ngroups uc in
  groups_restore NXT_OK nsaved saved uc
  end
  end.

(** Lines 411-415 of [nxt_user_cred_get]: enumerate the groups when the
    caller is the super-user. *)
Definition cred_get_groups (uc : nxt_user_cred_t) : M (Z * nxt_user_cred_t) :=
  u <- getuid;;
  if u =? 0 then nxt_user_groups_get uc else ret (NXT_OK, uc).

(** [nxt_user_cred_get(task, uc, group)]; [group] is [None] for [NULL]. *)
Definition nxt_user_cred_get (uc : nxt_user_cred_t) (group : option string)
    : M (Z * nxt_user_cred_t) :=
  modify (set_errno 0);;
  pwd <- getpwnam (user uc);;
  match pwd with
  | None =>
      e <- nxt_errno;;
      (if e =? 0 then nxt_log NXT_LOG_CRIT (MsgUserNotFound (user uc))
       else nxt_log NXT_LOG_CRIT (MsgGetpwnamFailed (user uc) e));;
      ret (NXT_ERROR, uc)
  | Some pwd =>
      let uc := cred_set_ids (pw_uid pwd) (pw_gid pwd) uc in
      match group with
      | Some (String c g) =>
          let group := String c g in
          modify (set_errno 0);;
          grp <- getgrnam group;;
          match grp with
          | None =>
              e <- nxt_errno;;
              (if e =? 0 then nxt_log NXT_LOG_CRIT (MsgGroupNotFound group)
               else nxt_log NXT_LOG_CRIT (MsgGetgrnamFailed group e));;
              ret (NXT_ERROR, uc)
          | Some grp =>
              cred_get_groups (cred_set_base_gid (gr_gid grp) uc)
          end
      | _ => cred_get_groups uc
      end
  end.

(** Lines 580-585 of [nxt_user_cred_set]: the user id, last. *)
Definition cred_set_uid (uc : nxt_user_cred_t) : M Z :=
  r <- setuid (uid uc);;
  if negb (r =? 0) then
    e <- nxt_errno;;
    nxt_log NXT_LOG_CRIT (MsgSetuidFailed (uid uc) e);;
    ret NXT_ERROR
  else
  ret NXT_OK.

(** [nxt_user_cred_set(task, uc)] *)
Definition nxt_user_cred_set (uc : nxt_user_cred_t) : M Z :=
  r <- setgid (base_gid uc);;
  if negb (r =? 0) then
    e <- nxt_errno;;
    nxt_log NXT_LOG_CRIT (MsgSetgidFailed (base_gid uc) e);;
    ret NXT_ERROR
  else
  match gids uc with
  | Some gs =>
      r <- setgroups (ngroups uc) gs;;
      if negb (r =? 0) then
        e <- nxt_errno;;
        nxt_log NXT_LOG_CRIT (MsgSetgroupsFailed (ngroups uc) e);;
        ret NXT_ERROR
      else cred_set_uid uc
  | None =>
      (* MacOSX fallback. *)
      r <- initgroups (user uc) (base_gid uc);;
      if negb (r =? 0) then
        nxt_log NXT_LOG_CRIT (MsgInitgroupsFailed (user uc) (base_gid uc));;
        ret NXT_ERROR
      else cred_set_uid uc
  end.

(** ** Daemonization *)

Definition set_pid (p : Z) (w : world) : world :=
  let o := os w in
  with_os (mk_os p (os_uid o) (os_gid o) (os_groups o) (os_umask o)
                 (os_session_leader o) (os_fds o) (os_errno o)) w.

Definition set_umask (m : Z) (w : world) : world :=
  let o := os w in
  with_os (mk_os (os_pid o) (os_uid o) (os_gid o) (os_groups o) m
                 (os_session_leader o) (os_fds o) (os_errno o)) w.

Definition set_session_leader (w : world) : world :=
  let o := os w in
  with_os (mk_os (os_pid o) (os_uid o) (os_gid o) (os_groups o) (os_umask o)
                 true (os_fds o) (os_errno o)) w.

Definition set_fds (f : gmap Z string) (w : world) : world :=
  let o := os w in
  with_os (mk_os (os_pid o) (os_uid o) (os_gid o) (os_groups o) (os_umask o)
                 (os_session_leader o) f (os_errno o)) w.

Definition set_nxt_pid (p : Z) (w : world) : world :=
  let n := nxt w in
  with_nxt (mk_nxt p (tid n) (sigev n) (rt n) (procs n) (port_heap n) (pools n)) w.

Definition set_tid (t : Z) (w : world) : world :=
  let n := nxt w in
  with_nxt (mk_nxt (nxt_pid n) t (sigev n) (rt n) (procs n) (port_heap n) (pools n)) w.

Definition getpid : M Z := gets (fun w => os_pid (os w)).

(** [fork()]: [-1] when refused; otherwise the execution continues on the
    side the environment names, in the child under its new pid. *)
Definition fork : M Z :=
  bad <- refused Fork;;
  if (bad : bool) then called Fork (-1);; ret (-1)
  else
    side <- gets (fun w => e_fork (env w));;
    match side with
    | Parent child => called Fork (Z.pos child);; ret (Z.pos child)
    | Child self => modify (set_pid (Z.pos self));; called Fork 0;; ret 0
    end.

Definition setsid : M Z :=
  bad <- refused Setsid;;
  if (bad : bool) then called Setsid (-1);; ret (-1)
  else
    modify set_session_leader;;
    p <- getpid;;
    called Setsid p;; ret p.

Definition umask (m : Z) : M unit :=
  modify (set_umask m);; perform (Umask m).

(** The lowest descriptor not in use, searched from [n] upwards. *)
Fixpoint lowest_free_from (fuel : nat) (n : Z) (fds : gmap Z string) : Z :=
  match fuel with
  | O => n
  | S fuel' =>
      match fds !! n with
      | None => n
      | Some _ => lowest_free_from fuel' (n + 1) fds
      end
  end.

Definition lowest_free (fds : gmap Z string) : Z :=
  lowest_free_from (size fds) 0 fds.

(** [open(path, O_RDWR)] returns the lowest free descriptor. *)
Definition open (path : string) : M Z :=
  bad <- refused (Open path);;
  if (bad : bool) then called (Open path) (-1);; ret (-1)
  else
    fds <- gets (fun w => os_fds (os w));;
    let fd := lowest_free fds in
    modify (set_fds (<[fd := path]> fds));;
    called (Open path) fd;; ret fd.

(** [dup2(oldfd, newfd)] makes [newfd] name the file of [oldfd]. *)
Definition dup2 (oldfd newfd : Z) : M Z :=
  bad <- refused (Dup2 oldfd newfd);;
  fds <- gets (fun w => os_fds (os w));;
  match bad, fds !! oldfd with
  | false, Some f =>
      modify (set_fds (<[newfd := f]> fds));;
      called (Dup2 oldfd newfd) newfd;; ret newfd
  | _, _ => called (Dup2 oldfd newfd) (-1);; ret (-1)
  end.

(** [nxt_fd_close(fd)]; its result is not looked at. *)
Definition nxt_fd_close (fd : Z) : M unit :=
  fds <- gets (fun w => os_fds (os w));;
  modify (set_fds (delete fd fds));;
  perform (Close fd).

(** The [fail:] label of [nxt_process_daemon]; [step] names the message. *)
Definition daemon_fail (step : call) : M Z :=
  e <- nxt_errno;;
  nxt_log NXT_LOG_CRIT (MsgDaemonFailed step e);;
  ret NXT_ERROR.

Definition dev_null : string := "/dev/null".

(** [nxt_process_daemon(task)] *)
Definition nxt_process_daemon : M Z :=
  pid <- fork;;
  if pid =? -1 then daemon_fail Fork
  else if negb (pid =? 0) then
    (* A parent. *)
    exit 0
  else
  (* A child. *)
  p <- getpid;;
  modify (set_nxt_pid p);;
  (* Clean inherited cached thread tid. *)
  modify (set_tid 0);;
  (* Detach from controlling terminal. *)
  r <- setsid;;
  if r =? -1 then
    e <- nxt_errno;;
    nxt_log NXT_LOG_CRIT (MsgSetsidFailed e);;
    ret NXT_ERROR
  else
  umask 0;;
  (* Redirect STDIN and STDOUT to the "/dev/null". *)
  fd <- open dev_null;;
  if fd =? -1 then daemon_fail (Open dev_null)
  else
  r <- dup2 fd STDIN_FILENO;;
  if r =? -1 then daemon_fail (Dup2 fd STDIN_FILENO)
  else
  r <- dup2 fd STDOUT_FILENO;;
  if r =? -1 then daemon_fail (Dup2 fd STDOUT_FILENO)
  else
  (if fd >? STDERR_FILENO then nxt_fd_close fd else ret tt);;
  ret NXT_OK.

(** ** Process records, ports and the process table *)

Definition set_sigev (s : Z) (w : world) : world :=
  let n := nxt w in
  with_nxt (mk_nxt (nxt_pid n) (tid n) s (rt n) (procs n) (port_heap n) (pools n)) w.

Definition set_rt (r : nxt_runtime_t) (w : world) : world :=
  let n := nxt w in
  with_nxt (mk_nxt (nxt_pid n) (tid n) (sigev n) r (procs n) (port_heap n) (pools n)) w.

Definition set_procs (h : gmap Z nxt_process_t) (w : world) : world :=
  let n := nxt w in
  with_nxt (mk_nxt (nxt_pid n) (tid n) (sigev n) (rt n) h (port_heap n) (pools n)) w.

Definition set_port_heap (h : gmap Z nxt_port_t) (w : world) : world :=
  let n := nxt w in
  with_nxt (mk_nxt (nxt_pid n) (tid n) (sigev n) (rt n) (procs n) h (pools n)) w.

Definition set_pools (h : gmap Z (list mp_cleanup)) (w : world) : world :=
  let n := nxt w in
  with_nxt (mk_nxt (nxt_pid n) (tid n) (sigev n) (rt n) (procs n) (port_heap n) h) w.

Definition set_types (t : Z) (r : nxt_runtime_t) : nxt_runtime_t :=
  mk_runtime t (processes r) (engine r) (batch r) (auxiliary_threads r) (main_port r).

Definition set_processes (t : gmap Z Z) (r : nxt_runtime_t) : nxt_runtime_t :=
  mk_runtime (types r) t (engine r) (batch r) (auxiliary_threads r) (main_port r).

Definition the_rt (w : world) : nxt_runtime_t := rt (nxt w).
Definition table (w : world) : gmap Z Z := processes (the_rt w).
Definition heap (w : world) : gmap Z nxt_process_t := procs (nxt w).

Definition proc_set_pid (v : Z) (p : nxt_process_t) : nxt_process_t :=
  mk_process v (ports p) (ready p) (port_cleanups p) (init p) (incoming p) (outgoing p).
Definition proc_set_ports (v : list Z) (p : nxt_process_t) : nxt_process_t :=
  mk_process (pid p) v (ready p) (port_cleanups p) (init p) (incoming p) (outgoing p).
Definition proc_set_ready (v : bool) (p : nxt_process_t) : nxt_process_t :=
  mk_process (pid p) (ports p) v (port_cleanups p) (init p) (incoming p) (outgoing p).
Definition proc_set_port_cleanups (v : Z) (p : nxt_process_t) : nxt_process_t :=
  mk_process (pid p) (ports p) (ready p) v (init p) (incoming p) (outgoing p).
Definition proc_set_incoming (v : list Z) (p : nxt_process_t) : nxt_process_t :=
  mk_process (pid p) (ports p) (ready p) (port_cleanups p) (init p) v (outgoing p).
Definition proc_set_outgoing (v : list Z) (p : nxt_process_t) : nxt_process_t :=
  mk_process (pid p) (ports p) (ready p) (port_cleanups p) (init p) (incoming p) v.

(** Reading through a process pointer. *)
Definition load (process : Z) : M nxt_process_t := fun w =>
  match heap w !! process with
  | Some p => (Ret p, w)
  | None => (Stuck, w)
  end.

(** [process->field = v] *)
Definition store (process : Z) (f : nxt_process_t -> nxt_process_t) : M unit :=
  p <- load process;;
  modify (fun w => set_procs (<[process := f p]> (heap w)) w).

Definition load_port (port : Z) : M nxt_port_t := fun w =>
  match port_heap (nxt w) !! port with
  | Some p => (Ret p, w)
  | None => (Stuck, w)
  end.

(** Modelled from the spec: [nxt_runtime_process_add] is declared outside
    this file; it inserts the record into the table under its pid. *)
Definition nxt_runtime_process_add (process : Z) : M unit :=
  p <- load process;;
  modify (fun w => set_rt (set_processes (<[pid p := process]> (table w)) (the_rt w)) w);;
  perform (RuntimeProcessAdd process).

(** Modelled from the spec: [nxt_runtime_process_remove] is declared
    outside this file; it deletes the record's entry from the table. *)
Definition nxt_runtime_process_remove (process : Z) : M unit :=
  p <- load process;;
  modify (fun w => set_rt (set_processes (delete (pid p) (table w)) (the_rt w)) w);;
  perform (RuntimeProcessRemove process).

(** Modelled from the spec: [nxt_port_mmaps_destroy(maps, 0)] is declared
    outside this file; it releases every mapping of the array and leaves
    the array empty.  The result is the array afterwards. *)
Definition nxt_port_mmaps_destroy (maps : list Z) : M (list Z) :=
  perform (PortMmapsDestroy maps);; ret [].

(** Modelled from the spec: [nxt_mp_cleanup(mp, handler, task, obj, data)]
    is declared outside this file; it registers [handler] to run on [obj]
    when the pool is destroyed ([data] is always the one runtime).  The
    event keeps the value [obj->port_cleanups] has when the call is made,
    which is what tells a registration made before the increment from one
    made after it. *)
Definition nxt_mp_cleanup (mp : Z) (handler : mp_handler) (obj : Z) : M unit :=
  p <- load obj;;
  modify (fun w =>
    set_pools (<[mp := default [] (pools (nxt w) !! mp) ++ [mk_cleanup handler obj]]>
                 (pools (nxt w))) w);;
  perform (MpCleanup mp obj (port_cleanups p)).

(** [nxt_process_port_mp_cleanup(task, obj, data)] *)
Definition nxt_process_port_mp_cleanup (process : Z) : M unit :=
  store process (fun p => proc_set_port_cleanups (wrap32 (port_cleanups p - 1)) p);;
  p <- load process;;
  if port_cleanups p =? 0 then nxt_runtime_process_remove process
  else ret tt.

(** [nxt_process_port_add(task, process, port)] *)
Definition nxt_process_port_add (process port : Z) : M unit :=
  pt <- load_port port;;
  modify (fun w =>
    set_port_heap (<[port := mk_port (Some process) (mem_pool pt)]> (port_heap (nxt w))) w);;
  store process (fun p => proc_set_ports (ports p ++ [port]) p);;
  nxt_mp_cleanup (mem_pool pt) process_port_mp_cleanup_handler process;;
  store process (fun p => proc_set_port_cleanups (wrap32 (port_cleanups p + 1)) p).

(** Running a registered cleanup. *)
Definition run_cleanup (c : mp_cleanup) : M unit :=
  match cl_handler c with
  | process_port_mp_cleanup_handler => nxt_process_port_mp_cleanup (cl_obj c)
  end.

Fixpoint for_each {A} (body : A -> M unit) (l : list A) : M unit :=
  match l with
  | [] => ret tt
  | a :: l' => body a;; for_each body l'
  end.

(** ** Bootstrap *)

(** [nxt_process_port_first(process)]: the head of the port queue (the
    null address stands for the queue's own sentinel when it is empty). *)
Definition nxt_process_port_first (process : Z) : M Z :=
  p <- load process;;
  ret (default 0 (head (ports p))).

(** A collaborator returning [NXT_OK] or [NXT_ERROR]; it leaves the
    modelled state alone. *)
Definition collaborator (c : call) : M Z :=
  invoke c NXT_ERROR NXT_OK (fun w => w).

(** [nxt_process_start(task, process)]; [goto fail] is [exit 1]. *)
Definition nxt_process_start (process : Z) : M unit :=
  p <- load process;;
  let init := init p in
  nxt_log NXT_LOG_INFO (MsgStarted (name init));;
  perform (ProcessTitle (name init));;
  perform RandomInit;;
  match user_cred init with
  | Some uc =>
      u <- getuid;;
      if u =? 0 then
        (* Super-user. *)
        r <- nxt_user_cred_set uc;;
        if negb (r =? NXT_OK) then exit 1 else ret tt
      else ret tt
  | None => ret tt
  end;;
  modify (fun w =>
    set_rt (set_types
              (wrap32 (Z.lor (types (the_rt w)) (wrap32 (Z.shiftl 1 (type init)))))
              (the_rt w)) w);;
  (* Update inherited main process event engine and signals processing. *)
  modify (set_sigev (signals init));;
  nm <- gets (fun w => engine (the_rt w));;
  interface <- invoke (ServiceGet nm) 0 1 (fun w => w);;
  if interface =? 0 then exit 1
  else
  b <- gets (fun w => batch (the_rt w));;
  r <- collaborator (EngineChange b);;
  if negb (r =? NXT_OK) then exit 1
  else
  n <- gets (fun w => auxiliary_threads (the_rt w));;
  r <- collaborator (ThreadPoolCreate n (60000 * 1000000));;
  if negb (r =? NXT_OK) then exit 1
  else
  main_port <- gets (fun w => main_port (the_rt w));;
  perform (PortReadClose main_port);;
  perform (PortWriteEnable main_port);;
  port <- nxt_process_port_first process;;
  perform (PortWriteClose port);;
  r <- collaborator (Start (start init) (data init));;
  if negb (r =? NXT_OK) then exit 1
  else
  perform (PortEnable port (port_handlers init));;
  r <- collaborator (PortSocketWrite main_port (stream init));;
  if negb (r =? NXT_OK) then
    nxt_log NXT_LOG_ERR MsgReadyFailed;;
    exit 1
  else
  ret tt.

(** ** Process creation *)

(** The body of the loop over the inherited table in the child. *)
Definition prune_inherited (p : Z) : M unit :=
  r <- load p;;
  if negb (ready r) then
    nxt_runtime_process_remove p
  else
    m <- nxt_port_mmaps_destroy (incoming r);;
    store p (proc_set_incoming m);;
    m <- nxt_port_mmaps_destroy (outgoing r);;
    store p (proc_set_outgoing m).

(** Modelled from the spec: [nxt_runtime_process_each ... loop] is a macro
    declared outside this file; it visits every record of the table once. *)
Definition nxt_runtime_process_each (body : Z -> M unit) : M unit :=
  t <- gets table;;
  for_each body (snd <$> map_to_list t).

(** [nxt_process_create(task, process)] *)
Definition nxt_process_create (process : Z) : M Z :=
  pid <- fork;;
  (if pid =? -1 then
     p <- load process;;
     e <- nxt_errno;;
     nxt_log NXT_LOG_CRIT (MsgForkFailed (name (init p)) e)
   else if pid =? 0 then
     (* A child. *)
     self <- getpid;;
     modify (set_nxt_pid self);;
     (* Clean inherited cached thread tid. *)
     modify (set_tid 0);;
     store process (proc_set_pid self);;
     modify (fun w => set_rt (set_types 0 (the_rt w)) w);;
     perform PortResetNextId;;
     perform EngineThreadAdopt;;
     (* Remove not ready processes *)
     nxt_runtime_process_each prune_inherited;;
     nxt_runtime_process_add process;;
     nxt_process_start process;;
     store process (proc_set_ready true)
   else
     (* A parent. *)
     store process (proc_set_pid pid);;
     nxt_runtime_process_add process);;
  ret pid.

(** ** Connected ports of a process

    [nxt_process_connected_port_add], [_remove] and [_find] work on three
    fields of the process record: the mutex [cp_mutex], the memory pool
    [cp_mem_pool] and the hash [connected_ports].  They are modelled over
    these fields alone, with a trace of their own. *)

(** A state monad over any state, for the parts of the file that do not
    touch the [world]. *)
Definition St (S A : Type) : Type := S -> outcome A * S.

Definition st_ret {S A} (a : A) : St S A := fun s => (Ret a, s).

Definition st_bind {S A B} (m : St S A) (k : A -> St S B) : St S B := fun s =>
  match m s with
  | (Ret a, s') => k a s'
  | (Exited e, s') => (Exited e, s')
  | (Stuck, s') => (Stuck, s')
  end.

Declare Scope st_scope.
Delimit Scope st_scope with st.
Notation "x <- m ;; k" := (st_bind m (fun x => k))
  (at level 100, m at next level, k at level 200, right associativity) : st_scope.
Notation "m ;; k" := (st_bind m (fun _ => k))
  (at level 100, k at level 200, right associativity) : st_scope.

Inductive cp_event :=
  | CpLock
  | CpUnlock
  | CpMpCreate (cluster_size page_alignment page_size min_chunk_size : Z) (pool : Z)
  | CpThreadAdopt (pool : Z) (thread : Z)
  | CpHashAdd (pool port : Z)
  | CpHashRemove (pool port : Z)
  | CpHashFind (pid port_id : Z).

Section ConnectedPorts.

(** Modelled from the spec: the port hash is declared outside this file.
    It is a table from (process id, port id) to port handles; its type
    and its three operations are parameters here.  [None] is the [NULL]
    result of a failed search. *)
Variable hash : Type.
Variable nxt_port_hash_add : hash -> Z -> Z -> hash.
Variable nxt_port_hash_remove : hash -> Z -> Z -> hash.
Variable nxt_port_hash_find : hash -> Z -> Z -> option Z.

(** The fields of [nxt_process_t] the three functions use, the calling
    thread, the pools' adopting threads, the address the next
    [nxt_mp_create] returns, and the trace.  [cp_mutex] tells whether
    the mutex is held. *)
Record cp_state := mk_cp {
  cp_mutex : bool;
  cp_mem_pool : option Z;
  connected_ports : hash;
  cp_thread : Z;
  cp_adopted : gmap Z Z;
  cp_next_pool : Z;
  cp_trace : list cp_event
}.

Definition cp_emit (e : cp_event) (s : cp_state) : cp_state :=
  mk_cp (cp_mutex s) (cp_mem_pool s) (connected_ports s) (cp_thread s)
        (cp_adopted s) (cp_next_pool s) (cp_trace s ++ [e]).

Local Open Scope st_scope.

(** [nxt_thread_mutex_lock]: a thread that asks for a mutex that is held
    waits; in a run of one thread it waits for ever. *)
Definition nxt_thread_mutex_lock : St cp_state unit := fun s =>
  if cp_mutex s then (Stuck, s)
  else (Ret tt,
        cp_emit CpLock
          (mk_cp true (cp_mem_pool s) (connected_ports s) (cp_thread s)
                 (cp_adopted s) (cp_next_pool s) (cp_trace s))).

Definition nxt_thread_mutex_unlock : St cp_state unit := fun s =>
  (Ret tt,
   cp_emit CpUnlock
     (mk_cp false (cp_mem_pool s) (connected_ports s) (cp_thread s)
            (cp_adopted s) (cp_next_pool s) (cp_trace s))).

(** Modelled from the spec: [nxt_mp_create] is declared outside this
    file; it returns a new pool. *)
Definition nxt_mp_create (cluster_size page_alignment page_size min_chunk_size : Z)
    : St cp_state Z := fun s =>
  let pool := cp_next_pool s in
  (Ret pool,
   cp_emit (CpMpCreate cluster_size page_alignment page_size min_chunk_size pool)
     (mk_cp (cp_mutex s) (cp_mem_pool s) (connected_ports s) (cp_thread s)
            (cp_adopted s) (pool + 1) (cp_trace s))).

(** Modelled from the spec: [nxt_mp_thread_adopt] is declared outside
    this file; it tells the pool which thread is using it. *)
Definition nxt_mp_thread_adopt (pool : Z) : St cp_state unit := fun s =>
  (Ret tt,
   cp_emit (CpThreadAdopt pool (cp_thread s))
     (mk_cp (cp_mutex s) (cp_mem_pool s) (connected_ports s) (cp_thread s)
            (<[pool := cp_thread s]> (cp_adopted s)) (cp_next_pool s)
            (cp_trace s))).

Definition set_cp_mem_pool (p : option Z) : St cp_state unit := fun s =>
  (Ret tt,
   mk_cp (cp_mutex s) p (connected_ports s) (cp_thread s)
         (cp_adopted s) (cp_next_pool s) (cp_trace s)).

Definition set_connected_ports (h : hash) (s : cp_state) : cp_state :=
  mk_cp (cp_mutex s) (cp_mem_pool s) h (cp_thread s)
        (cp_adopted s) (cp_next_pool s) (cp_trace s).

Definition get_cp_mem_pool : St cp_state (option Z) := fun s =>
  (Ret (cp_mem_pool s), s).

(** [nxt_process_connected_port_add(process, port)] *)
Definition nxt_process_connected_port_add (port : Z) : St cp_state unit :=
  nxt_thread_mutex_lock;;
  mp <- get_cp_mem_pool;;
  (if mp is None then
     pool <- nxt_mp_create 1024 128 256 32;;
     set_cp_mem_pool (Some pool)
   else st_ret tt);;
  mp <- get_cp_mem_pool;;
  match mp with
  | None => fun s => (Stuck, s)
  | Some pool =>
      nxt_mp_thread_adopt pool;;
      (fun s => (Ret tt,
                 cp_emit (CpHashAdd pool port)
                   (set_connected_ports
                      (nxt_port_hash_add (connected_ports s) pool port) s)));;
      nxt_thread_mutex_unlock
  end.

(** [nxt_process_connected_port_remove(process, port)] *)
Definition nxt_process_connected_port_remove (port : Z) : St cp_state unit :=
  nxt_thread_mutex_lock;;
  mp <- get_cp_mem_pool;;
  (match mp with
   | Some pool =>
       nxt_mp_thread_adopt pool;;
       (fun s => (Ret tt,
                  cp_emit (CpHashRemove pool port)
                    (set_connected_ports
                       (nxt_port_hash_remove (connected_ports s) pool port) s)))
   | None => st_ret tt
   end);;
  nxt_thread_mutex_unlock.

(** [nxt_process_connected_port_find(process, pid, port_id)] *)
Definition nxt_process_connected_port_find (pid port_id : Z)
    : St cp_state (option Z) :=
  nxt_thread_mutex_lock;;
  res <- (fun s => (Ret (nxt_port_hash_find (connected_ports s) pid port_id),
                    cp_emit (CpHashFind pid port_id) s));;
  nxt_thread_mutex_unlock;;
  st_ret res.

(** One call of one of the three functions, and a run of several. *)
Inductive cp_op :=
  | OpAdd (port : Z)
  | OpRemove (port : Z)
  | OpFind (pid port_id : Z).

Definition run_op (o : cp_op) : St cp_state unit :=
  match o with
  | OpAdd port => nxt_process_connected_port_add port
  | OpRemove port => nxt_process_connected_port_remove port
  | OpFind pid port_id => _ <- nxt_process_connected_port_find pid port_id;; st_ret tt
  end.

Fixpoint run_ops (l : list cp_op) : St cp_state unit :=
  match l with
  | [] => st_ret tt
  | o :: l' => run_op o;; run_ops l'
  end.

End ConnectedPorts.

Arguments mk_cp {hash}.
Arguments cp_mutex {hash}.
Arguments cp_mem_pool {hash}.
Arguments connected_ports {hash}.
Arguments cp_thread {hash}.
Arguments cp_adopted {hash}.
Arguments cp_next_pool {hash}.
Arguments cp_trace {hash}.

(** ** Sleeping *)

(** [nxt_nanosleep(ns)]: the state is the list of requests handed to
    [nanosleep], seconds and nanoseconds; the call's result is dropped.
    [/] and [%] are C's, truncating. *)
Definition nxt_nanosleep (ns : Z) : St (list (Z * Z)) unit := fun reqs =>
  let tv_sec := Z.quot ns 1000000000 in
  let tv_nsec := Z.rem ns 1000000000 in
  (Ret tt, reqs ++ [(tv_sec, tv_nsec)]).

(** ** Sample worlds *)

Definition tty : string := "/dev/tty".

Definition sample_env (faults : list (sys * nat * Z)) (side : fork_side)
    (max : Z) : environ :=
  mk_environ
    [("nobody"%string, mk_passwd 65534 65534); ("www"%string, mk_passwd 33 33)]
    [("nogroup"%string, mk_group 65534 []);
     ("web"%string, mk_group 1000 ["www"%string]);
     ("staff"%string, mk_group 50 ["www"%string; "root"%string])]
    faults side max.

Definition sample_os (fds : list (Z * string)) : os_state :=
  mk_os 100 0 0 [0; 4] 18 false (list_to_map fds) 0.

Definition std_fds : list (Z * string) := [(0, tty); (1, tty); (2, tty)].

Definition router_init : nxt_process_init_t :=
  mk_init "router" None 3 7 11 12 5 13.

Definition sample_nxt : nxt_state :=
  mk_nxt 100 100 1
    (mk_runtime 1 (list_to_map [(100, 1000); (200, 2000); (300, 3000)])
                "epoll" 8 2 9000)
    (list_to_map
       [(1000, mk_process 100 [] true 0 router_init [1; 2] [3]);
        (2000, mk_process 200 [] false 0 router_init [4] [5]);
        (3000, mk_process 300 [] true 0 router_init [] [6]);
        (5000, mk_process 0 [9001] false 0 router_init [] [])])
    (list_to_map [(9001, mk_port None 70); (9002, mk_port None 71)])
    ∅.

Definition sample_world (faults : list (sys * nat * Z)) (side : fork_side) : world :=
  mk_world (sample_env faults side 65536) [] (sample_os std_fds) sample_nxt.

Definition www_cred : nxt_user_cred_t := mk_cred "www" 33 33 None 0.

(** A platform with [NGROUPS_MAX = 16] where the process is in 17 groups. *)
Definition macosx_world : world :=
  mk_world (sample_env [] (Child 4242) 16) []
           (mk_os 100 0 0 (Z.of_nat <$> seq 0 17) 18 false (list_to_map std_fds) 0)
           sample_nxt.

(** A process started with standard input closed. *)
Definition stdin_closed_world : world :=
  mk_world (sample_env [] (Child 4242) 65536) []
           (sample_os [(1, tty); (2, tty)]) sample_nxt.

(** * Vocabulary of the properties *)

(** [since w w' evs]: between [w] and [w'] exactly [evs] was appended to
    the trace. *)
Definition since (w w' : world) (evs : list event) : Prop :=
  trace w' = trace w ++ evs.

(** The calls of a piece of trace, with their return values. *)
Definition calls_of (evs : list event) : list (call * Z) :=
  omap (fun e => match e with EvCall c r => Some (c, r) | EvLog _ _ => None end) evs.

(** The call by which [nxt_user_cred_set] installs the supplementary
    groups of a credential. *)
Definition supplementary_call (uc : nxt_user_cred_t) : call :=
  match gids uc with
  | Some gs => Setgroups (take (Z.to_nat (ngroups uc)) gs)
  | None => Initgroups (user uc) (base_gid uc)
  end.

(** [getgrnam(g)] returns [NULL] in [w]: the name is unknown or the call
    is refused. *)
Definition group_lookup_fails (g : string) (w : world) : Prop :=
  assoc g (e_group (env w)) = None \/ is_Some (fault_of SGetgrnam w).

(** A record after [port] was attached, with [c] pending cleanups. *)
Definition attached (port : Z) (c : Z) (pr : nxt_process_t) : nxt_process_t :=
  proc_set_port_cleanups c (proc_set_ports (ports pr ++ [port]) pr).

(** The cleanup [nxt_process_port_add] registers for [process]. *)
Definition process_cleanup (process : Z) : mp_cleanup :=
  mk_cleanup process_port_mp_cleanup_handler process.

(** The return value with which a call reports failure to
    [nxt_process_start] or [nxt_user_cred_set]. *)
Definition failed (c : call) (r : Z) : bool :=
  match kind_of c with
  | Some SServiceGet => r =? 0
  | Some _ => r =? -1
  | None => false
  end.

(** [nxt_port_enable], the step that turns full port handling on. *)
Definition is_port_enable (c : call) : bool :=
  match c with
  | PortEnable _ _ => true
  | _ => false
  end.

(** The sending of the ready message to the main process. *)
Definition is_ready_send (c : call) : bool :=
  match c with
  | PortSocketWrite _ _ => true
  | _ => false
  end.

(** The ready flag of the record at address [a], if there is one. *)
Definition ready_at (h : gmap Z nxt_process_t) (a : Z) : bool :=
  match h !! a with
  | Some r => ready r
  | None => false
  end.

(** A record whose mappings have been destroyed, both directions. *)
Definition released (r : nxt_process_t) : nxt_process_t :=
  proc_set_outgoing [] (proc_set_incoming [] r).

(** Every entry of the table leads to a record that carries the entry's
    pid. *)
Definition table_ok (w : world) : Prop :=
  forall k a, table w !! k = Some a ->
    exists r, heap w !! a = Some r /\ pid r = k.

(** The base gid a resolution ends with: the named group's when a
    non-empty group name is given and known, the account's otherwise. *)
Definition resolved_gid (group : option string) (pwd : passwd) (w : world) : Z :=
  match group with
  | Some (String c g) =>
      match assoc (String c g) (e_group (env w)) with
      | Some grp => gr_gid grp
      | None => pw_gid pwd
      end
  | _ => pw_gid pwd
  end.



(** The supplementary groups a credential stands for in world [w]: the
    first [ngroups] cells of [gids], or what [initgroups] computes. *)
Definition credential_groups (uc : nxt_user_cred_t) (w : world) : list Z :=
  match gids uc with
  | Some gs => take (Z.to_nat (ngroups uc)) gs
  | None => grouplist (user uc) (base_gid uc) (e_group (env w))
  end.

(** The credential the bootstrap of record [p] switches to in world [w]:
    the configured one when the process runs as super-user, none
    otherwise. *)
Definition switches_to (p : nxt_process_t) (w : world) : option nxt_user_cred_t :=
  match user_cred (init p) with
  | Some uc => if os_uid (os w) =? 0 then Some uc else None
  | None => None
  end.

(** The calls of a bootstrap of record [p] in which nothing fails. *)
Definition bootstrap_calls (p : nxt_process_t) (w : world) : list (call * Z) :=
  let i := init p in
  let port := default 0 (head (ports p)) in
  let main := main_port (the_rt w) in
  [(ProcessTitle (name i), 0); (RandomInit, 0)] ++
  match switches_to p w with
  | Some uc => [(Setgid (base_gid uc), 0); (supplementary_call uc, 0);
                (Setuid (uid uc), 0)]
  | None => []
  end ++
  [(ServiceGet (engine (the_rt w)), 1);
   (EngineChange (batch (the_rt w)), 0);
   (ThreadPoolCreate (auxiliary_threads (the_rt w)) 60000000000, 0);
   (PortReadClose main, 0);
   (PortWriteEnable main, 0);
   (PortWriteClose port, 0);
   (Start (start i) (data i), 0);
   (PortEnable port (port_handlers i), 0);
   (PortSocketWrite main (stream i), 0)].

(** A worker role with a credential to switch to, and a world whose table
    holds its record. *)
Definition worker_init : nxt_process_init_t :=
  mk_init "worker" (Some (mk_cred "www" 33 33 (Some [33; 1000; 50]) 3)) 4 7 11 12 6 13.

Definition worker_world : world :=
  mk_world (sample_env [] (Child 4243) 65536) [] (sample_os std_fds)
    (mk_nxt 100 100 1
       (mk_runtime 1 (list_to_map [(100, 1000)]) "epoll" 8 2 9000)
       (list_to_map
          [(1000, mk_process 100 [] true 0 router_init [] []);
           (6000, mk_process 0 [9001] false 0 worker_init [] [])])
       (list_to_map [(9001, mk_port None 70)])
       ∅).

(** [static w w']: [w'] differs from [w] at most in the trace, the process
    table and the [incoming] and [outgoing] arrays of the records. *)
Definition static (w w' : world) : Prop :=
  env w' = env w /\ os w' = os w /\
  nxt_pid (nxt w') = nxt_pid (nxt w) /\ tid (nxt w') = tid (nxt w) /\
  sigev (nxt w') = sigev (nxt w) /\
  set_processes ∅ (the_rt w') = set_processes ∅ (the_rt w) /\
  forall a, (fun r => (pid r, ports r, ready r, port_cleanups r, init r))
              <$> heap w' !! a =
            (fun r => (pid r, ports r, ready r, port_cleanups r, init r))
              <$> heap w !! a.

(** [under_mutex held evs]: in [evs], starting with the mutex held or
    not, locks and unlocks alternate, every access to the pool or the hash
    falls between a lock and its unlock, and the mutex is free at the
    end. *)
Fixpoint under_mutex (held : bool) (evs : list cp_event) : bool :=
  match evs with
  | [] => negb held
  | CpLock :: r => negb held && under_mutex true r
  | CpUnlock :: r => held && under_mutex false r
  | _ :: r => held && under_mutex held r
  end.

(** The pool an event names, if it names one. *)
Definition pool_of (e : cp_event) : option Z :=
  match e with
  | CpMpCreate _ _ _ _ pool => Some pool
  | CpThreadAdopt pool _ => Some pool
  | CpHashAdd pool _ => Some pool
  | CpHashRemove pool _ => Some pool
  | _ => None
  end.

Definition is_mp_create (e : cp_event) : bool :=
  match e with
  | CpMpCreate _ _ _ _ _ => true
  | _ => false
  end.

Definition is_add (o : cp_op) : bool :=
  match o with
  | OpAdd _ => true
  | _ => false
  end.

(** A port hash for the examples: a map from (pid, id) to handles, a
    handle [100 * pid + id] standing for the port of that pid and id. *)
Definition port_key (port : Z) : Z * Z := (port / 100, port mod 100).
Definition sample_hash_add (h : gmap (Z * Z) Z) (pool port : Z) : gmap (Z * Z) Z :=
  <[port_key port := port]> h.
Definition sample_hash_remove (h : gmap (Z * Z) Z) (pool port : Z) : gmap (Z * Z) Z :=
  delete (port_key port) h.
Definition sample_hash_find (h : gmap (Z * Z) Z) (pid id : Z) : option Z :=
  h !! (pid, id).
Definition fresh_registry : cp_state (gmap (Z * Z) Z) :=
  mk_cp false None ∅ 7 ∅ 500 [].

(** An event of the child's walk over the inherited table: the removal of
    a record or the destruction of an array of mappings. *)
Definition is_walk (e : event) : bool :=
  match e with
  | EvCall (RuntimeProcessRemove _) _ => true
  | EvCall (PortMmapsDestroy _) _ => true
  | _ => false
  end.

(** [unlinked p w]: the link of port [p] is in the queue of no record. *)
Definition unlinked (p : Z) (w : world) : Prop :=
  forall a r, heap w !! a = Some r -> p ∉ ports r.

(** The sample world with a third port; 9002 and 9003 are in no queue. *)
Definition three_ports_world : world :=
  set_port_heap (<[9003 := mk_port None 72]> (port_heap sample_nxt))
                (sample_world [] (Child 4242)).

(** * Properties *)

Arguments fault_of : simpl never.

Create HintDb proc.
#[local] Hint Unfold bind ret exit stuck gets modify nxt_log called nxt_errno
  refused invoke perform collaborator
  getuid getpid getpwnam getgrnam initgroups setgroups setgid setuid getgroups
  nxt_malloc nxt_free fork setsid umask open dup2 nxt_fd_close daemon_fail
  groups_restore cred_get_groups cred_set_uid
  load store load_port
  emit with_trace with_os with_nxt set_errno set_groups set_gid set_uid set_pid
  set_umask set_session_leader set_fds set_nxt_pid set_tid set_sigev set_rt
  set_procs set_port_heap set_pools : proc.


Ltac tidy_trace := rewrite <- ?app_assoc; cbn.

(** The fault schedule only looks at the environment and at the earlier
    invocations of the same call. *)
Lemma fault_of_irrelevant (k : sys) (w w' : world) :
  env w' = env w ->
  filter (fun e => is_kind k e = true) (trace w') =
    filter (fun e => is_kind k e = true) (trace w) ->
  fault_of k w' = fault_of k w.
Proof.
  intros He Ht. unfold fault_of, invocations. now rewrite He, Ht.
Qed.

Lemma fault_of_emit (k : sys) (e : event) (ev : environ)
    (t : list event) (o : os_state) (n : nxt_state) :
  is_kind k e = false ->
  fault_of k (mk_world ev (t ++ [e]) o n) = fault_of k (mk_world ev t o n).
Proof.
  intros Hk. apply fault_of_irrelevant; [reflexivity|].
  change (trace (mk_world ev (t ++ [e]) o n)) with (t ++ [e]).
  change (trace (mk_world ev t o n)) with t.
  rewrite filter_app, filter_cons_False by (rewrite Hk; discriminate).
  now rewrite filter_nil, app_nil_r.
Qed.


(** C10: when the account is found and the group lookup fails,
    [nxt_user_cred_get] returns [NXT_ERROR] with [uid] and [base_gid]
    already overwritten by the account's values. *)
Theorem nxt_user_cred_get_partial_update (uc : nxt_user_cred_t) (c : Ascii.ascii)
    (g : string) (pwd : passwd) (w : world) :
  fault_of SGetpwnam w = None ->
  assoc (user uc) (e_passwd (env w)) = Some pwd ->
  group_lookup_fails (String c g) w ->
  (nxt_user_cred_get uc (Some (String c g)) w).1 =
    Ret (NXT_ERROR, mk_cred (user uc) (pw_uid pwd) (pw_gid pwd) (gids uc) (ngroups uc)).
Proof.
  intros Hf Hp Hg. unfold nxt_user_cred_get.
  autounfold with proc; cbn.
  change (fault_of SGetpwnam _) with (fault_of SGetpwnam w). rewrite Hf. cbn.
  rewrite Hp. cbn.
  rewrite fault_of_emit by reflexivity.
  change (fault_of SGetgrnam _) with (fault_of SGetgrnam w).
  destruct Hg as [Hg | [e Hg]].
  - destruct (fault_of SGetgrnam w); cbn.
    + destruct (_ =? 0); reflexivity.
    + rewrite Hg. cbn. reflexivity.
  - rewrite Hg. cbn. destruct (_ =? 0); reflexivity.
Qed.

Lemma nxt_user_cred_get_partial_update_witness :
  (nxt_user_cred_get (mk_cred "www" 0 0 None 0) (Some "nosuch"%string)
     (sample_world [] (Child 4242))).1 =
    Ret (NXT_ERROR, mk_cred "www" 33 33 None 0).
Proof.
  apply (nxt_user_cred_get_partial_update (mk_cred "www" 0 0 None 0)
           _ _ (mk_passwd 33 33) (sample_world [] (Child 4242))).
  - reflexivity.
  - reflexivity.
  - left. reflexivity.
Defined.

(** What [getgroups(n, buf)] leaves in a buffer that is large enough. *)
Lemma take_saved (gs : list Z) :
  take (Z.to_nat (Z.of_nat (length gs)))
       (gs ++ drop (length gs) (replicate (Z.to_nat (Z.of_nat (length gs))) 0)) = gs.
Proof.
  rewrite Nat2Z.id, take_app_length. reflexivity.
Qed.

Lemma saved_buffer (gs : list Z) :
  take (Z.to_nat (Z.of_nat (length gs)))
       (if Z.of_nat (length gs) =? 0
        then replicate (Z.to_nat (Z.of_nat (length gs))) 0
        else gs ++ drop (length gs) (replicate (Z.to_nat (Z.of_nat (length gs))) 0)) = gs.
Proof.
  destruct gs as [|g gs]; [reflexivity|].
  replace (Z.of_nat (length (g :: gs)) =? 0) with false
    by (symmetry; apply Z.eqb_neq; cbn [length]; lia).
  apply take_saved.
Qed.

Lemma of_nat_not_minus_one (n : nat) : (Z.of_nat n =? -1) = false.
Proof. apply Z.eqb_neq. lia. Qed.

Ltac run :=
  repeat first
    [ progress cbn
    | rewrite of_nat_not_minus_one
    | rewrite Z.ltb_irrefl
    | rewrite andb_false_r
    | rewrite orb_false_r
    | rewrite saved_buffer
    | rewrite take_saved
    | match goal with
      | |- context [fault_of ?k ?w] => destruct (fault_of k w) eqn:?
      | |- context [?a >? ?b] => destruct (a >? b) eqn:?
      end ].

(** C8: when [getgroups(0, NULL)] reports more than [NGROUPS_MAX] groups,
    [nxt_user_groups_get] returns [NXT_OK] after that single call and
    leaves the credential as it was; with [gids] absent, a later
    [nxt_user_cred_set] installs the groups through [initgroups]. *)
Theorem nxt_user_groups_get_overflow (uc : nxt_user_cred_t) (w : world) :
  fault_of SGetgroups w = None ->
  Z.of_nat (length (os_groups (os w))) > NGROUPS_MAX (env w) ->
  gids uc = None ->
  let r := nxt_user_groups_get uc w in
  r.1 = Ret (NXT_OK, uc) /\
  os_groups (os r.2) = os_groups (os w) /\
  calls_of (drop (length (trace w)) (trace r.2)) =
    [(Getgroups 0, Z.of_nat (length (os_groups (os w))))] /\
  forall w2, fault_of SSetgid w2 = None ->
    exists evs ret,
      since w2 (nxt_user_cred_set uc w2).2 evs /\
      calls_of evs !! 1%nat = Some (Initgroups (user uc) (base_gid uc), ret).
Proof.
  intros Hf Hn Hg. unfold nxt_user_groups_get.
  apply Z.gt_lt, Z.ltb_lt in Hn. rewrite <- Z.gtb_ltb in Hn.
  autounfold with proc; cbn. rewrite Hf. cbn. rewrite of_nat_not_minus_one. cbn. rewrite Hn. cbn.

  repeat split.
  - rewrite drop_app_length. reflexivity.
  - intros w2 Hw2. unfold nxt_user_cred_set, since. rewrite Hg.
    autounfold with proc; cbn. rewrite Hw2. run; tidy_trace.
    all: eexists _, _; split; reflexivity.
Qed.

Lemma nxt_user_groups_get_overflow_witness :
  (nxt_user_groups_get www_cred macosx_world).1 = Ret (NXT_OK, www_cred).
Proof.
  refine (proj1 (nxt_user_groups_get_overflow www_cred macosx_world _ _ _));
    reflexivity.
Defined.

(** C3, as the code has it: once [initgroups] has been attempted the call
    sequence ends with [setgroups] of the snapshot and [free], whatever
    happened in between; a failed restore makes the status [NXT_ERROR]; and
    the process's group list is the one it had before the call unless the
    restore itself failed, in particular whenever the status is
    [NXT_OK]; when the restore fails after a successful [initgroups] the
    status is [NXT_ERROR] and the process keeps the list [initgroups]
    installed. *)
Theorem nxt_user_groups_get_restore (uc : nxt_user_cred_t) (w : world) :
  exists evs status uc',
    let r := nxt_user_groups_get uc w in
    let saved := os_groups (os w) in
    since w r.2 evs /\ r.1 = Ret (status, uc') /\
    (forall ret, In (Initgroups (user uc) (base_gid uc), ret) (calls_of evs) ->
       exists pre ret',
         calls_of evs = pre ++ [(Setgroups saved, ret'); (Free, 0)] /\
         In (Initgroups (user uc) (base_gid uc), ret) pre) /\
    (forall gs, In (Setgroups gs, -1) (calls_of evs) -> status = NXT_ERROR) /\
    ((forall gs, ~ In (Setgroups gs, -1) (calls_of evs)) ->
       os_groups (os r.2) = saved) /\
    (status = NXT_OK -> os_groups (os r.2) = saved) /\
    (forall gs, In (Initgroups (user uc) (base_gid uc), 0) (calls_of evs) ->
       In (Setgroups gs, -1) (calls_of evs) ->
       status = NXT_ERROR /\
       os_groups (os r.2) = grouplist (user uc) (base_gid uc) (e_group (env w))).
Proof.
  unfold nxt_user_groups_get, since.
  autounfold with proc. run.
  all: tidy_trace.
  all: eexists _, _, _; split; [reflexivity|]; split; [reflexivity|]; cbn.
  all: repeat apply conj.
  all: try reflexivity.
  all: try (intros; reflexivity).
  all: try (intros gs H; exfalso; intuition discriminate).
  all: try (intros H; exfalso; discriminate H).
  all: try (intros H; exfalso; apply (H (os_groups (os w))); intuition reflexivity).
  all: try (intros gs Hi Hs;
            first [ split; reflexivity | exfalso; clear Hi; intuition discriminate ]).
  all: intros r H;
    match goal with
    | |- exists pre ret', ?cs = _ /\ _ =>
        exists (take (length cs - 2) cs); cbn; eexists; split; [reflexivity|]
    end;
    intuition (try discriminate);
    match goal with
    | E : (_, _) = (_, _) |- _ => injection E as <-
    end; tauto.
Qed.

Lemma nxt_user_groups_get_restore_witness :
  os_groups (os (nxt_user_groups_get www_cred (sample_world [] (Child 4242))).2)
    = [0; 4].
Proof.
  destruct (nxt_user_groups_get_restore www_cred (sample_world [] (Child 4242)))
    as (evs & status & uc' & _ & Hr & _ & _ & _ & Hok & _).
  apply Hok. vm_compute in Hr. injection Hr as <- _. reflexivity.
Defined.

(** C3, as stated, fails: when the restoring [setgroups] is refused the
    call returns with the process holding the target user's groups. *)
Lemma nxt_user_groups_get_restore_failure_leaks :
  let w := sample_world [(SSetgroups, 0%nat, 12)] (Child 4242) in
  let r := nxt_user_groups_get www_cred w in
  r.1 = Ret (NXT_ERROR, mk_cred "www" 33 33 (Some [33; 1000; 50]) 3) /\
  os_groups (os w) = [0; 4] /\
  os_groups (os r.2) = [33; 1000; 50] /\
  os_groups (os r.2) <> os_groups (os w).
Proof.
  vm_compute. repeat split. discriminate.
Qed.

(** *** Daemonization *)

Lemma lowest_free_from_ge (fuel : nat) (n : Z) (fds : gmap Z string) :
  n <= lowest_free_from fuel n fds.
Proof.
  revert n. induction fuel as [|fuel IH]; intros n; cbn; [lia|].
  destruct (fds !! n); [|lia]. specialize (IH (n + 1)). lia.
Qed.

Lemma lowest_free_not_minus_one (fds : gmap Z string) :
  (lowest_free fds =? -1) = false.
Proof.
  apply Z.eqb_neq. pose proof (lowest_free_from_ge (size fds) 0 fds).
  unfold lowest_free. lia.
Qed.

Lemma lookup_after_dup2 (fd d : Z) (p : string) (fds : gmap Z string) :
  (<[d := p]> (<[fd := p]> fds)) !! fd = Some p.
Proof.
  destruct (decide (d = fd)) as [->|Hne].
  - apply lookup_insert_eq.
  - rewrite lookup_insert_ne by exact Hne. apply lookup_insert_eq.
Qed.

(** C9, as the code has it: a daemonization that succeeds opened the null
    device on the lowest free descriptor [fd] and duplicated it onto
    standard input and output; it closed [fd] exactly when [fd] is above the
    standard error descriptor, so a descriptor that is itself 0, 1 or 2 is
    left open. *)
Theorem nxt_process_daemon_close (w w' : world) (evs : list event) :
  nxt_process_daemon w = (Ret NXT_OK, w') ->
  since w w' evs ->
  let fd := lowest_free (os_fds (os w)) in
  In (Open dev_null, fd) (calls_of evs) /\
  In (Dup2 fd STDIN_FILENO, STDIN_FILENO) (calls_of evs) /\
  In (Dup2 fd STDOUT_FILENO, STDOUT_FILENO) (calls_of evs) /\
  (fd > STDERR_FILENO ->
     In (Close fd, 0) (calls_of evs) /\ os_fds (os w') !! fd = None) /\
  (fd <= STDERR_FILENO ->
     (forall d r, ~ In (Close d, r) (calls_of evs)) /\
     os_fds (os w') !! fd = Some dev_null).
Proof.
  unfold nxt_process_daemon, since.
  autounfold with proc.
  destruct (e_fork (env w)) eqn:Hside.
  all: repeat first
    [ progress cbn
    | rewrite Hside
    | rewrite lowest_free_not_minus_one
    | rewrite lookup_insert_eq
    | rewrite lookup_after_dup2
    | match goal with
      | |- context [fault_of ?k ?w] => destruct (fault_of k w) eqn:?
      | |- context [?a >? ?b] => destruct (a >? b) eqn:?
      end ].
  all: try discriminate.
  all: intros [= <-] Hs; cbn in Hs; rewrite <- !app_assoc in Hs;
    apply app_inv_head in Hs; subst evs; cbn.
  all: match goal with H : (_ >? _) = _ |- _ => rename H into Hfd end.
  all: repeat match goal with H : fault_of _ _ = _ |- _ => clear H end.
  all: rewrite Z.gtb_ltb in Hfd.
  - apply Z.ltb_lt in Hfd.
    split; [tauto|]. split; [tauto|]. split; [tauto|]. split.
    + intros _. split; [tauto|]. apply lookup_delete_eq.
    + intros Hle. lia.
  - apply Z.ltb_ge in Hfd.
    split; [tauto|]. split; [tauto|]. split; [tauto|]. split.
    + intros Hgt. lia.
    + intros _. split.
      * intros d r Hin. intuition discriminate.
      * destruct (decide (STDOUT_FILENO = lowest_free (os_fds (os w)))) as [<-|Hne].
        -- apply lookup_insert_eq.
        -- rewrite lookup_insert_ne by exact Hne. apply lookup_after_dup2.
Qed.

Lemma nxt_process_daemon_close_witness :
  In (Close 3, 0)
     (calls_of (trace (nxt_process_daemon (sample_world [] (Child 4242))).2)).
Proof.
  refine (proj1 (proj1 (proj2 (proj2 (proj2
    (nxt_process_daemon_close (sample_world [] (Child 4242))
       (nxt_process_daemon (sample_world [] (Child 4242))).2
       (trace (nxt_process_daemon (sample_world [] (Child 4242))).2) _ _)))) _)).
  - vm_compute. reflexivity.
  - vm_compute. reflexivity.
  - reflexivity.
Defined.

(** C9, as stated, fails: with standard input closed the null device is
    opened on descriptor 0, which is not the standard error descriptor, and
    daemonization succeeds without closing it. *)
Lemma nxt_process_daemon_keeps_low_descriptor :
  let r := nxt_process_daemon stdin_closed_world in
  r.1 = Ret NXT_OK /\
  In (Open dev_null, 0) (calls_of (trace r.2)) /\
  0 <> STDERR_FILENO /\
  (forall r', ~ In (Close 0, r') (calls_of (trace r.2))) /\
  os_fds (os r.2) !! 0 = Some dev_null.
Proof.
  vm_compute. repeat split; try discriminate.
  - tauto.
  - intros r' H. intuition discriminate.
Qed.

(** *** Ports of a process record *)

#[local] Hint Unfold heap table the_rt nxt_runtime_process_add
  nxt_runtime_process_remove nxt_port_mmaps_destroy nxt_mp_cleanup
  set_types set_processes : proc.

Ltac run_heap :=
  repeat first
    [ progress cbn
    | rewrite lookup_insert_eq
    | match goal with
      | H : ?m !! ?k = Some _ |- context [?m !! ?k] => rewrite H
      end ].

Lemma nxt_process_port_add_run (process port : Z) (pr : nxt_process_t)
    (pt : nxt_port_t) (w : world) :
  heap w !! process = Some pr ->
  port_heap (nxt w) !! port = Some pt ->
  exists w',
    nxt_process_port_add process port w = (Ret tt, w') /\
    port_heap (nxt w') = <[port := mk_port (Some process) (mem_pool pt)]> (port_heap (nxt w)) /\
    heap w' = <[process := attached port (wrap32 (port_cleanups pr + 1)) pr]> (heap w) /\
    pools (nxt w') =
      <[mem_pool pt := default [] (pools (nxt w) !! mem_pool pt) ++ [process_cleanup process]]>
        (pools (nxt w)) /\
    trace w' = trace w ++ [EvCall (MpCleanup (mem_pool pt) process (port_cleanups pr)) 0] /\
    table w' = table w /\ env w' = env w /\ os w' = os w.
Proof.
  intros Hp Hpt. unfold nxt_process_port_add.
  autounfold with proc in *. run_heap.
  eexists. split; [reflexivity|]. cbn.
  rewrite !insert_insert_eq. repeat split.
Qed.

Lemma nxt_process_port_mp_cleanup_run (process : Z) (pr : nxt_process_t) (w : world) :
  heap w !! process = Some pr ->
  let c := wrap32 (port_cleanups pr - 1) in
  exists w',
    nxt_process_port_mp_cleanup process w = (Ret tt, w') /\
    heap w' = <[process := proc_set_port_cleanups c pr]> (heap w) /\
    (if c =? 0
     then table w' = delete (pid pr) (table w) /\
          trace w' = trace w ++ [EvCall (RuntimeProcessRemove process) 0]
     else table w' = table w /\ trace w' = trace w).
Proof.
  intros Hp. unfold nxt_process_port_mp_cleanup.
  autounfold with proc in *. run_heap.
  destruct (wrap32 (port_cleanups pr - 1) =? 0); run_heap.
  all: eexists; split; [reflexivity|]; cbn; repeat split.
Qed.

Lemma wrap32_small (z : Z) : 0 <= z < 4294967296 -> wrap32 z = z.
Proof. intros H. unfold wrap32. apply Z.mod_small. exact H. Qed.

(** Attaching a list of ports, one after the other. *)
Lemma attach_all_run (process : Z) (l : list Z) :
  forall (w : world) (pr : nxt_process_t),
    heap w !! process = Some pr ->
    Forall (fun p => is_Some (port_heap (nxt w) !! p)) l ->
    0 <= port_cleanups pr ->
    port_cleanups pr + Z.of_nat (length l) < 2 ^ 32 ->
    exists w' pr',
      for_each (nxt_process_port_add process) l w = (Ret tt, w') /\
      heap w' !! process = Some pr' /\
      port_cleanups pr' = port_cleanups pr + Z.of_nat (length l) /\
      ports pr' = ports pr ++ l /\
      pid pr' = pid pr /\
      table w' = table w.
Proof.
  change (2 ^ 32) with 4294967296.
  induction l as [|p l IH]; intros w pr Hp Hl H0 Hlt.
  - exists w, pr. cbn. rewrite Z.add_0_r, app_nil_r. repeat split. exact Hp.
  - apply Forall_cons in Hl as [[pt Hpt] Hl].
    destruct (nxt_process_port_add_run process p pr pt w Hp Hpt)
      as (w1 & Hrun & Hports & Hheap & _ & _ & Htab & _).
    change (length (p :: l)) with (S (length l)) in *.
    rewrite Nat2Z.inj_succ in *.
    destruct (IH w1 (attached p (wrap32 (port_cleanups pr + 1)) pr))
      as (w' & pr' & Hrun' & Hp' & Hc & Hq & Hpid & Htab').
    + rewrite Hheap. apply lookup_insert_eq.
    + rewrite Hports. eapply Forall_impl; [exact Hl|].
      intros q Hq. cbn in Hq |- *. rewrite lookup_insert. case_decide; eauto.
    + cbn. rewrite wrap32_small by lia. lia.
    + cbn. rewrite wrap32_small by lia. lia.
    + exists w', pr'. split.
      * cbn [for_each]. unfold bind at 1. rewrite Hrun. exact Hrun'.
      * split; [exact Hp'|]. cbn in Hc, Hq, Hpid.
        rewrite wrap32_small in Hc by lia.
        repeat split; [lia | now rewrite Hq, <- app_assoc | exact Hpid | congruence].
Qed.

(** Running the cleanup of a record fewer times than it has pending
    cleanups touches neither the table nor the trace. *)
Lemma cleanups_pending (process : Z) (k : nat) :
  forall (w : world) (pr : nxt_process_t),
    heap w !! process = Some pr ->
    Z.of_nat k < port_cleanups pr < 2 ^ 32 ->
    exists w',
      for_each run_cleanup (replicate k (process_cleanup process)) w = (Ret tt, w') /\
      heap w' !! process =
        Some (proc_set_port_cleanups (port_cleanups pr - Z.of_nat k) pr) /\
      table w' = table w /\ trace w' = trace w.
Proof.
  change (2 ^ 32) with 4294967296.
  induction k as [|k IH]; intros w pr Hp Hk.
  - exists w. cbn. rewrite Z.sub_0_r. destruct pr; repeat split. exact Hp.
  - rewrite Nat2Z.inj_succ in *.
    destruct (nxt_process_port_mp_cleanup_run process pr w Hp)
      as (w1 & Hrun & Hheap & Hres).
    rewrite wrap32_small in Hheap, Hres by lia.
    replace (port_cleanups pr - 1 =? 0) with false in Hres
      by (symmetry; apply Z.eqb_neq; lia).
    destruct Hres as [Htab Htr].
    destruct (IH w1 (proc_set_port_cleanups (port_cleanups pr - 1) pr))
      as (w' & Hrun' & Hp' & Htab' & Htr').
    + rewrite Hheap. apply lookup_insert_eq.
    + cbn. lia.
    + exists w'. split.
      * cbn [replicate for_each]. unfold bind at 1.
        change (run_cleanup (process_cleanup process))
          with (nxt_process_port_mp_cleanup process).
        rewrite Hrun. exact Hrun'.
      * split; [|split; congruence].
        rewrite Hp'. unfold proc_set_port_cleanups. cbn. do 2 f_equal. lia.
Qed.

Lemma for_each_app {A} (body : A -> M unit) (l1 l2 : list A) (w w1 : world) :
  for_each body l1 w = (Ret tt, w1) ->
  for_each body (l1 ++ l2) w = for_each body l2 w1.
Proof.
  revert w. induction l1 as [|a l1 IH]; intros w H; cbn in *.
  - injection H as <-. reflexivity.
  - unfold bind in *. destruct (body a w) as [[[]| |] w0]; try discriminate.
    apply IH. exact H.
Qed.

(** C5: a record with no pending cleanups gets the ports [l] attached and
    then its cleanup callback fires [k] times, [k] at most the number of
    ports.  Every firing takes one from [port_cleanups]; the record leaves
    the table, once, at the firing that brings the count to zero - the
    last one - and not before. *)
Theorem port_cleanups_lifetime (process : Z) (l : list Z) (k : nat)
    (w : world) (pr : nxt_process_t) :
  heap w !! process = Some pr ->
  port_cleanups pr = 0 ->
  Forall (fun p => is_Some (port_heap (nxt w) !! p)) l ->
  Z.of_nat (length l) < 2 ^ 32 ->
  (k <= length l)%nat ->
  exists w1 w2 evs pr2,
    for_each (nxt_process_port_add process) l w = (Ret tt, w1) /\
    for_each run_cleanup (replicate k (process_cleanup process)) w1 = (Ret tt, w2) /\
    since w1 w2 evs /\
    heap w2 !! process = Some pr2 /\
    port_cleanups pr2 = Z.of_nat (length l) - Z.of_nat k /\
    if (k =? length l)%nat && (0 <? k)%nat
    then evs = [EvCall (RuntimeProcessRemove process) 0] /\
         table w2 = delete (pid pr) (table w)
    else evs = [] /\ table w2 = table w.
Proof.
  change (2 ^ 32) with 4294967296.
  intros Hp Hc Hl Hn Hk.
  destruct (attach_all_run process l w pr Hp Hl) as
    (w1 & pr1 & Hrun1 & Hp1 & Hc1 & _ & Hpid & Htab1); [lia | change (2 ^ 32) with 4294967296; lia |].
  rewrite Hc, Z.add_0_l in Hc1.
  exists w1. unfold since.
  destruct (decide (k = length l)) as [->|Hne].
  - rewrite Nat.eqb_refl. cbn [andb].
    destruct (length l) as [|n] eqn:Hlen.
    + exists w1, [], pr1. cbn. rewrite app_nil_r. repeat split; auto.
    + rewrite Nat2Z.inj_succ in *.
      destruct (cleanups_pending process n w1 pr1 Hp1) as
        (w2 & Hrun2 & Hp2 & Htab2 & Htr2); [lia|].
      destruct (nxt_process_port_mp_cleanup_run process _ w2 Hp2)
        as (w3 & Hrun3 & Hheap3 & Hres).
      cbn in Hres, Hheap3.
      replace (port_cleanups pr1 - Z.of_nat n - 1) with 0 in Hres, Hheap3 by lia.
      cbn in Hres. destruct Hres as [Htab3 Htr3].
      exists w3, [EvCall (RuntimeProcessRemove process) 0], (proc_set_port_cleanups 0 pr1).
      split; [exact Hrun1|]. split.
      { rewrite replicate_S_end. rewrite (for_each_app _ _ _ _ _ Hrun2).
        cbn. unfold bind.
        change (run_cleanup (process_cleanup process))
          with (nxt_process_port_mp_cleanup process).
        rewrite Hrun3. reflexivity. }
      split; [congruence|]. split.
      { rewrite Hheap3. apply lookup_insert_eq. }
      split; [cbn; lia|]. split; [reflexivity|]. congruence.
  - assert (k < length l)%nat as Hlt by lia.
    replace (k =? length l)%nat with false by (symmetry; apply Nat.eqb_neq; exact Hne).
    cbn [andb].
    destruct (cleanups_pending process k w1 pr1 Hp1) as
      (w2 & Hrun2 & Hp2 & Htab2 & Htr2); [lia|].
    exists w2, [], (proc_set_port_cleanups (port_cleanups pr1 - Z.of_nat k) pr1).
    rewrite app_nil_r. repeat split; auto; try congruence. cbn. lia.
Qed.

Lemma port_cleanups_lifetime_witness :
  exists w1 w2 evs pr2,
    for_each (nxt_process_port_add 5000) [9001; 9002]
             (sample_world [] (Child 4242)) = (Ret tt, w1) /\
    for_each run_cleanup (replicate 2 (process_cleanup 5000)) w1 = (Ret tt, w2) /\
    since w1 w2 evs /\
    heap w2 !! 5000 = Some pr2 /\
    port_cleanups pr2 = 2 - 2 /\
    evs = [EvCall (RuntimeProcessRemove 5000) 0] /\
    table w2 = delete 0 (table (sample_world [] (Child 4242))).
Proof.
  refine (port_cleanups_lifetime 5000 [9001; 9002] 2 (sample_world [] (Child 4242))
            (mk_process 0 [9001] false 0 router_init [] []) _ _ _ _ _).
  - vm_compute. reflexivity.
  - reflexivity.
  - repeat constructor; vm_compute; eauto.
  - reflexivity.
  - cbn. lia.
Defined.

(** C6, as the code has it: [nxt_process_port_add] sets the port's owner,
    appends the port at the tail of the record's queue, registers on the
    port's pool the cleanup whose run takes one from [port_cleanups], and
    adds one to [port_cleanups]; the registration is made while the count
    still has its old value, the increment comes after it. *)
Theorem nxt_process_port_add_spec (process port : Z) (pr : nxt_process_t)
    (pt : nxt_port_t) (w : world) :
  heap w !! process = Some pr ->
  port_heap (nxt w) !! port = Some pt ->
  let r := nxt_process_port_add process port w in
  r.1 = Ret tt /\
  port_heap (nxt r.2) !! port = Some (mk_port (Some process) (mem_pool pt)) /\
  heap r.2 !! process =
    Some (attached port (wrap32 (port_cleanups pr + 1)) pr) /\
  pools (nxt r.2) !! mem_pool pt =
    Some (default [] (pools (nxt w) !! mem_pool pt) ++ [process_cleanup process]) /\
  run_cleanup (process_cleanup process) = nxt_process_port_mp_cleanup process /\
  since w r.2 [EvCall (MpCleanup (mem_pool pt) process (port_cleanups pr)) 0].
Proof.
  intros Hp Hpt.
  destruct (nxt_process_port_add_run process port pr pt w Hp Hpt)
    as (w' & Hrun & Hports & Hheap & Hpools & Htr & _).
  cbn zeta. rewrite Hrun. cbn [fst snd].
  rewrite Hports, Hheap, Hpools, !lookup_insert_eq.
  repeat split. exact Htr.
Qed.

Lemma nxt_process_port_add_spec_witness :
  heap (nxt_process_port_add 5000 9002 (sample_world [] (Child 4242))).2 !! 5000 =
    Some (mk_process 0 [9001; 9002] false 1 router_init [] []).
Proof.
  refine (proj1 (proj2 (proj2
    (nxt_process_port_add_spec 5000 9002
       (mk_process 0 [9001] false 0 router_init [] []) (mk_port None 71)
       (sample_world [] (Child 4242)) _ _)))).
  - vm_compute. reflexivity.
  - vm_compute. reflexivity.
Defined.

(** C6, as stated, fails on the order: when the cleanup is registered the
    record's [port_cleanups] is still 0; it becomes 1 only afterwards. *)
Lemma nxt_process_port_add_registers_before_increment :
  let w := sample_world [] (Child 4242) in
  let r := nxt_process_port_add 5000 9002 w in
  port_cleanups <$> heap w !! 5000 = Some 0 /\
  port_cleanups <$> heap r.2 !! 5000 = Some 1 /\
  trace r.2 = [EvCall (MpCleanup 71 5000 0) 0] /\
  ~ In (EvCall (MpCleanup 71 5000 1) 0) (trace r.2).
Proof.
  vm_compute. repeat split. intros [H|[]]. discriminate H.
Qed.

(** *** Bootstrap *)

(** Case analysis on a membership [In (c, r) l] in a list given by its
    elements: one goal per element, with [c] and [r] replaced by it. *)
Ltac case_in H :=
  cbn in H;
  repeat (destruct H as [H|H]);
  try contradiction;
  injection H as ? ?; subst.

Ltac pick_in := repeat first [left; reflexivity | right].

Ltac run_start :=
  repeat first
    [ progress cbn
    | match goal with
      | H : ?m !! ?k = Some _ |- context [?m !! ?k] => rewrite H
      | |- context [fault_of ?k ?w] => destruct (fault_of k w) eqn:?
      | |- context [os_uid ?o =? 0] => destruct (os_uid o =? 0) eqn:?
      | |- context [user_cred ?i] => destruct (user_cred i) eqn:?
      | |- context [gids ?u] => destruct (gids u) eqn:?
      end ].

Lemma nxt_process_start_run (process : Z) (pr : nxt_process_t) (w : world) :
  heap w !! process = Some pr ->
  exists o w' evs,
    nxt_process_start process w = (o, w') /\
    (o = Ret tt \/ o = Exited 1) /\
    since w w' evs /\
    heap w' = heap w /\ table w' = table w /\
    (forall c r, In (c, r) (calls_of evs) -> failed c r = true -> o = Exited 1) /\
    (forall c r, In (c, r) (calls_of evs) -> failed c r = true ->
       is_ready_send c = false ->
       forall c' r', In (c', r') (calls_of evs) -> is_port_enable c' = false) /\
    (forall c r, In (c, r) (calls_of evs) -> failed c r = true ->
       is_ready_send c = true ->
       exists pre post h,
         calls_of evs = pre ++ (c, r) :: post /\
         In (PortEnable (default 0 (head (ports pr))) h, 0) pre).
Proof.
  intros Hp. unfold nxt_process_start, nxt_process_port_first, nxt_user_cred_set, since.
  autounfold with proc in *.
  all: run_start.
  all: tidy_trace.
  all: eexists _, _, _; split; [reflexivity|].
  all: split; [auto|]; split; [reflexivity|]; split; [reflexivity|]; split; [reflexivity|].
  all: cbn.
  all: split; [|split].
  all: try (intros; reflexivity).
  all: match goal with
       | |- forall c r, _ -> _ -> _ = Exited 1 =>
           intros c r Hin Hf; exfalso; case_in Hin; cbn in Hf; discriminate Hf
       | |- forall c r, _ -> _ -> _ -> forall c' r', _ -> _ = false =>
           intros c r Hin Hf Hrs c' r' Hin'; case_in Hin; cbn in Hf, Hrs;
           try discriminate; case_in Hin'; reflexivity
       | |- forall c r, _ -> _ -> _ -> exists _, _ =>
           intros c r Hin Hf Hrs; case_in Hin; cbn in Hf, Hrs;
           try discriminate;
           match goal with
           | |- exists pre post h, ?cs = _ /\ _ =>
               exists (take (length cs - 1) cs), [];
               eexists; split; [reflexivity | cbn; pick_in]
           end
       end.
Qed.

(** A bootstrap that returns: its calls and the state it leaves. *)
Lemma nxt_process_start_ok (process : Z) (p : nxt_process_t) (w w' : world) :
  heap w !! process = Some p ->
  nxt_process_start process w = (Ret tt, w') ->
  calls_of (drop (length (trace w)) (trace w')) = bootstrap_calls p w /\
  types (the_rt w') =
    wrap32 (Z.lor (types (the_rt w)) (wrap32 (Z.shiftl 1 (type (init p))))) /\
  sigev (nxt w') = signals (init p) /\
  nxt_pid (nxt w') = nxt_pid (nxt w) /\
  tid (nxt w') = tid (nxt w) /\
  os_pid (os w') = os_pid (os w) /\
  heap w' = heap w /\ table w' = table w /\
  match switches_to p w with
  | Some uc => os_uid (os w') = uid uc /\ os_gid (os w') = base_gid uc /\
               os_groups (os w') = credential_groups uc w
  | None => os w' = os w
  end.
Proof.
  intros Hp. unfold nxt_process_start, nxt_process_port_first, nxt_user_cred_set,
    bootstrap_calls, switches_to, supplementary_call, credential_groups.
  autounfold with proc in *.
  run_start.
  all: try discriminate.
  all: intros [= <-]; cbn.
  all: rewrite <- ?app_assoc, drop_app_length; cbn.
  all: repeat split.
  all: destruct (os w); reflexivity.
Qed.

(** C1, as the code has it: a call of the bootstrap that reports failure -
    the engine lookup or rebind, the thread pool, the entry point, the
    ready message, or a step of the privilege switch - ends the process
    with [exit(1)].  When the failing call is not the ready message, no
    port has been enabled; the ready message is sent after
    [nxt_port_enable], so when it fails the port is enabled already. *)
Theorem nxt_process_start_fatal (process : Z) (pr : nxt_process_t) (w : world)
    (c : call) (r : Z) :
  heap w !! process = Some pr ->
  let res := nxt_process_start process w in
  let cs := calls_of (drop (length (trace w)) (trace res.2)) in
  In (c, r) cs ->
  failed c r = true ->
  res.1 = Exited 1 /\
  (is_ready_send c = false ->
     forall c' r', In (c', r') cs -> is_port_enable c' = false) /\
  (is_ready_send c = true ->
     exists pre post h,
       cs = pre ++ (c, r) :: post /\
       In (PortEnable (default 0 (head (ports pr))) h, 0) pre).
Proof.
  intros Hp.
  destruct (nxt_process_start_run process pr w Hp)
    as (o & w' & evs & Hrun & _ & Hs & _ & _ & H1 & H2 & H3).
  cbn zeta. rewrite Hrun. cbn [fst snd]. unfold since in Hs.
  rewrite Hs, drop_app_length. intros Hin Hf.
  split; [eauto|]. split; [intros Hrs; eapply H2; eauto | intros Hrs; eapply H3; eauto].
Qed.

Lemma nxt_process_start_fatal_witness :
  (nxt_process_start 5000 (sample_world [(SEngineChange, 0%nat, 12)] (Child 4242))).1
    = Exited 1.
Proof.
  refine (proj1 (nxt_process_start_fatal 5000
            (mk_process 0 [9001] false 0 router_init [] [])
            (sample_world [(SEngineChange, 0%nat, 12)] (Child 4242))
            (EngineChange 8) (-1) _ _ _)).
  - vm_compute. reflexivity.
  - vm_compute. tauto.
  - reflexivity.
Defined.

(** C1, as stated, fails for the ready message: when sending it fails the
    process exits with status 1, but [nxt_port_enable] has been called. *)
Lemma nxt_process_start_ready_failure_after_enable :
  let w := sample_world [(SPortSocketWrite, 0%nat, 32)] (Child 4242) in
  let res := nxt_process_start 5000 w in
  res.1 = Exited 1 /\
  In (PortSocketWrite 9000 5, -1) (calls_of (trace res.2)) /\
  In (PortEnable 9001 13, 0) (calls_of (trace res.2)).
Proof.
  vm_compute. repeat split; tauto.
Qed.

(** *** Process creation *)

(** C7: when [fork()] fails, [nxt_process_create] logs the failure at
    critical level with the role name and [errno], returns [-1], and leaves
    the process table and every record as they were. *)
Theorem nxt_process_create_fork_failure (process : Z) (pr : nxt_process_t)
    (e : Z) (w : world) :
  heap w !! process = Some pr ->
  fault_of SFork w = Some e ->
  let res := nxt_process_create process w in
  res.1 = Ret (-1) /\
  since w res.2 [EvCall Fork (-1);
                 EvLog NXT_LOG_CRIT (MsgForkFailed (name (init pr)) e)] /\
  table res.2 = table w /\
  heap res.2 = heap w /\
  nxt res.2 = nxt w.
Proof.
  intros Hp Hf. unfold nxt_process_create, since.
  autounfold with proc in *. cbn. rewrite Hf. cbn. rewrite Hp. cbn.
  rewrite <- app_assoc. repeat split.
Qed.

Lemma nxt_process_create_fork_failure_witness :
  (nxt_process_create 5000 (sample_world [(SFork, 0%nat, 11)] (Parent 4242))).1
    = Ret (-1).
Proof.
  refine (proj1 (nxt_process_create_fork_failure 5000
            (mk_process 0 [9001] false 0 router_init [] []) 11
            (sample_world [(SFork, 0%nat, 11)] (Parent 4242)) _ _)).
  - vm_compute. reflexivity.
  - vm_compute. reflexivity.
Defined.

(** *** The child's repair of the inherited table *)

Lemma prune_inherited_run (a : Z) (r : nxt_process_t) (w : world) :
  heap w !! a = Some r ->
  exists w',
    prune_inherited a w = (Ret tt, w') /\
    if ready r
    then heap w' = <[a := released r]> (heap w) /\
         table w' = table w /\
         trace w' = trace w ++ [EvCall (PortMmapsDestroy (incoming r)) 0;
                                EvCall (PortMmapsDestroy (outgoing r)) 0]
    else heap w' = heap w /\
         table w' = delete (pid r) (table w) /\
         trace w' = trace w ++ [EvCall (RuntimeProcessRemove a) 0].
Proof.
  intros Hp. unfold prune_inherited.
  autounfold with proc in *. run_heap.
  destruct (ready r); run_heap.
  all: eexists; split; [reflexivity|]; cbn.
  all: rewrite <- ?app_assoc, ?insert_insert_eq; repeat split.
Qed.

Lemma prune_loop (h0 : gmap Z nxt_process_t) (kl : list (Z * Z)) :
  forall w : world,
    NoDup kl.*1 -> NoDup kl.*2 ->
    (forall k a, (k, a) ∈ kl ->
       exists r, h0 !! a = Some r /\ heap w !! a = Some r /\ pid r = k) ->
    exists w' evs,
      for_each prune_inherited kl.*2 w = (Ret tt, w') /\
      since w w' evs /\
      (forall k a, (k, a) ∈ kl -> ready_at h0 a = false -> table w' !! k = None) /\
      (forall k, (forall a, (k, a) ∈ kl -> ready_at h0 a = true) ->
         table w' !! k = table w !! k) /\
      (forall a r, a ∈ kl.*2 -> h0 !! a = Some r -> ready r = true ->
         heap w' !! a = Some (released r) /\
         In (EvCall (PortMmapsDestroy (incoming r)) 0) evs /\
         In (EvCall (PortMmapsDestroy (outgoing r)) 0) evs) /\
      (forall a, a ∉ kl.*2 \/ ready_at h0 a = false -> heap w' !! a = heap w !! a).
Proof.
  induction kl as [|[k a] kl IH]; intros w Hk Ha Hwf.
  - exists w, []. unfold since. cbn. rewrite app_nil_r.
    split; [reflexivity|]. split; [reflexivity|].
    split; [intros k a Hin; inversion Hin|].
    split; [reflexivity|].
    split; [intros a r Hin; inversion Hin|].
    reflexivity.
  - cbn [fmap list_fmap fst snd] in Hk, Ha.
    apply NoDup_cons in Hk as [Hk1 Hk], Ha as [Ha1 Ha].
    destruct (Hwf k a) as (r & Hh0 & Hh & Hpid); [left|].
    destruct (prune_inherited_run a r w Hh) as (w1 & Hrun & Hres).
    destruct (IH w1 Hk Ha) as (w' & evs & Hrun' & Hs & HT1 & HT2 & HH1 & HH2).
    { intros k' a' Hin. destruct (Hwf k' a') as (r' & ? & ? & ?); [right; exact Hin|].
      exists r'. split; [assumption|]. split; [|assumption].
      assert (a' <> a) as Hne.
      { intros ->. apply Ha1. apply list_elem_of_fmap. exists (k', a). auto. }
      destruct (ready r); destruct Hres as (-> & _ & _); [|assumption].
      rewrite lookup_insert_ne by auto. assumption. }
    assert (forall a', (k, a') ∈ kl -> False) as Hkfresh.
    { intros a' Hin. apply Hk1. apply list_elem_of_fmap. exists (k, a'). auto. }
    assert (ready_at h0 a = ready r) as Hra by (unfold ready_at; now rewrite Hh0).
    unfold since in *.
    destruct (ready r) eqn:Hr; destruct Hres as (Hheap & Htab & Htr).
    + exists w', ([EvCall (PortMmapsDestroy (incoming r)) 0;
                   EvCall (PortMmapsDestroy (outgoing r)) 0] ++ evs).
      split; [cbn [fmap list_fmap for_each snd]; unfold bind at 1; rewrite Hrun; exact Hrun'|].
      split; [rewrite Hs, Htr, <- app_assoc; reflexivity|].
      split; [|split; [|split]].
      * intros k' a' Hin Hnr. apply elem_of_cons in Hin as [[= -> ->]|Hin];
          [congruence | eauto].
      * intros k' Hall. rewrite <- Htab. apply HT2. intros a' Hin. apply Hall. now right.
      * intros a' r' Hin Hr0 Hrdy. cbn [fmap list_fmap snd] in Hin.
        apply elem_of_cons in Hin as [->|Hin].
        -- assert (r' = r) as -> by congruence.
           split; [|cbn; tauto].
           rewrite HH2 by (left; exact Ha1). rewrite Hheap. apply lookup_insert_eq.
        -- destruct (HH1 a' r' Hin Hr0 Hrdy) as (? & ? & ?).
           split; [assumption|]. split; apply in_or_app; right; assumption.
      * intros a' [Hnin|Hnr].
        -- rewrite HH2.
           ++ rewrite Hheap. apply lookup_insert_ne. intros ->. apply Hnin. left.
           ++ left. intros Hin. apply Hnin. now right.
        -- destruct (decide (a' = a)) as [->|Hne]; [congruence|].
           rewrite HH2 by (right; exact Hnr). rewrite Hheap. now apply lookup_insert_ne.
    + exists w', ([EvCall (RuntimeProcessRemove a) 0] ++ evs).
      split; [cbn [fmap list_fmap for_each snd]; unfold bind at 1; rewrite Hrun; exact Hrun'|].
      split; [rewrite Hs, Htr, <- app_assoc; reflexivity|].
      split; [|split; [|split]].
      * intros k' a' Hin Hnr. apply elem_of_cons in Hin as [[= -> ->]|Hin]; [|eauto].
        rewrite HT2 by (intros a' Hin; destruct (Hkfresh a' Hin)).
        rewrite Htab, Hpid. apply lookup_delete_eq.
      * intros k' Hall. rewrite HT2 by (intros a' Hin; apply Hall; now right).
        rewrite Htab, Hpid. apply lookup_delete_ne. intros ->.
        specialize (Hall a (ltac:(left))). congruence.
      * intros a' r' Hin Hr0 Hrdy. cbn [fmap list_fmap snd] in Hin.
        apply elem_of_cons in Hin as [->|Hin]; [congruence|].
        destruct (HH1 a' r' Hin Hr0 Hrdy) as (? & ? & ?).
        split; [assumption|]. split; apply in_or_app; right; assumption.
      * intros a' [Hnin|Hnr].
        -- rewrite HH2; [congruence|]. left. intros Hin. apply Hnin. now right.
        -- rewrite HH2 by (right; exact Hnr). congruence.
Qed.

(** The walk appends nothing but removals and destructions. *)
Lemma prune_events (l : list Z) :
  forall w w' : world,
    for_each prune_inherited l w = (Ret tt, w') ->
    exists evs, since w w' evs /\ forallb is_walk evs = true.
Proof.
  induction l as [|a l IH]; intros w w' H; cbn in H.
  - injection H as <-. exists []. unfold since. rewrite app_nil_r. auto.
  - unfold bind in H. destruct (heap w !! a) as [r|] eqn:Ha.
    + destruct (prune_inherited_run a r w Ha) as (w1 & Hrun & Hres).
      rewrite Hrun in H. destruct (IH w1 w' H) as (evs & Hs & Hf).
      unfold since in *.
      destruct (ready r); destruct Hres as (_ & _ & Htr);
        eexists (_ ++ evs); rewrite Hs, Htr, <- app_assoc;
        (split; [reflexivity | rewrite forallb_app, Hf; reflexivity]).
    + unfold prune_inherited, bind, load in H. rewrite Ha in H. discriminate H.
Qed.

Lemma table_addresses_distinct (w : world) :
  table_ok w -> NoDup (map_to_list (table w)).*2.
Proof.
  intros Hok. apply NoDup_fmap_2_strong; [|apply NoDup_map_to_list].
  intros [k1 a1] [k2 a2] H1 H2 Heq. cbn in Heq. subst a2.
  apply elem_of_map_to_list in H1, H2.
  destruct (Hok k1 a1 H1) as (r1 & Hr1 & <-).
  destruct (Hok k2 a1 H2) as (r2 & Hr2 & <-).
  congruence.
Qed.

(** The child's branch of [nxt_process_create] up to the call of the
    bootstrap: the world [w1] in which [nxt_process_start] is entered. *)
Lemma nxt_process_create_child_run (process : Z) (pr : nxt_process_t)
    (self : positive) (w : world) :
  e_fork (env w) = Child self ->
  fault_of SFork w = None ->
  heap w !! process = Some pr ->
  table_ok w ->
  (forall k, table w !! k <> Some process) ->
  exists w1 evs,
    nxt_process_create process w =
      ((nxt_process_start process;; store process (proc_set_ready true));;
       ret 0) w1 /\
    since w w1 ([EvCall Fork 0; EvCall PortResetNextId 0; EvCall EngineThreadAdopt 0]
                  ++ evs ++ [EvCall (RuntimeProcessAdd process) 0]) /\
    forallb is_walk evs = true /\
    heap w1 !! process = Some (proc_set_pid (Z.pos self) pr) /\
    table w1 !! Z.pos self = Some process /\
    (forall k a r, table w !! k = Some a -> heap w !! a = Some r ->
       if ready r
       then heap w1 !! a = Some (released r) /\
            In (EvCall (PortMmapsDestroy (incoming r)) 0) evs /\
            In (EvCall (PortMmapsDestroy (outgoing r)) 0) evs /\
            (k <> Z.pos self -> table w1 !! k = Some a)
       else forall k', table w1 !! k' <> Some a).
Proof.
  intros Hside Hfork Hp Hok Hfresh.
  unfold nxt_process_create, nxt_runtime_process_each.
  autounfold with proc in *. cbn. rewrite Hfork. cbn. rewrite Hside. cbn.
  rewrite Hp. cbn.
  match goal with
  | |- context [for_each prune_inherited ?l ?w0] =>
      destruct (prune_loop (procs (nxt w)) (map_to_list (processes (rt (nxt w)))) w0)
        as (wb & evs & Hrun & Hs & HT1 & HT2 & HH1 & HH2)
  end.
  { apply NoDup_fst_map_to_list. }
  { apply table_addresses_distinct. exact Hok. }
  { intros k a Hin. apply elem_of_map_to_list in Hin.
    destruct (Hok k a Hin) as (r & Hr & Hpid). exists r.
    split; [exact Hr|]. split; [|exact Hpid]. cbn.
    rewrite lookup_insert_ne; [exact Hr|]. intros ->. exact (Hfresh k Hin). }
  assert (process ∉ (map_to_list (processes (rt (nxt w)))).*2) as Hnin.
  { intros Hin. apply list_elem_of_fmap in Hin as ([k a] & -> & Hin).
    apply elem_of_map_to_list in Hin. exact (Hfresh k Hin). }
  assert (forallb is_walk evs = true) as Hwalk.
  { destruct (prune_events _ _ _ Hrun) as (evs' & Hs' & Hf). unfold since in Hs, Hs'.
    rewrite Hs in Hs'. apply app_inv_head in Hs'. now subst evs'. }
  rewrite Hrun. cbn in HH2, HT2 |- *.
  assert (procs (nxt wb) !! process = Some (proc_set_pid (Z.pos self) pr)) as Hpb.
  { rewrite HH2 by (left; exact Hnin). apply lookup_insert_eq. }
  unfold heap, table, the_rt, since in *. rewrite Hpb. cbn.
  exists (emit (EvCall (RuntimeProcessAdd process) 0)
            (set_rt (set_processes (<[Z.pos self := process]> (table wb)) (the_rt wb)) wb)).
  exists evs.
  autounfold with proc. cbn.
  split; [reflexivity|].
  split; [rewrite Hs; cbn; rewrite <- !app_assoc; reflexivity|].
  split; [exact Hwalk|].
  split; [exact Hpb|]. split; [apply lookup_insert_eq|].
  intros k a r Hk Ha.
  assert ((k, a) ∈ map_to_list (processes (rt (nxt w)))) as Hin
    by (apply elem_of_map_to_list; exact Hk).
  assert (a <> process) as Hne by (intros ->; exact (Hfresh k Hk)).
  destruct (ready r) eqn:Hr.
  - destruct (HH1 a r) as (Hh & Hi & Ho); auto.
    { apply list_elem_of_fmap. exists (k, a). auto. }
    split; [exact Hh|].
    split; [exact Hi|].
    split; [exact Ho|].
    intros Hks. rewrite lookup_insert_ne by auto.
    rewrite HT2; [exact Hk|].
    intros a' Hin'. apply elem_of_map_to_list in Hin'.
    assert (a' = a) as -> by congruence. unfold ready_at. now rewrite Ha.
  - intros k' Hk'.
    destruct (decide (Z.pos self = k')) as [<-|Hks].
    + rewrite lookup_insert_eq in Hk'. congruence.
    + rewrite lookup_insert_ne in Hk' by auto.
      destruct (decide (k' = k)) as [->|Hkk].
      * rewrite (HT1 k a) in Hk'; [discriminate| exact Hin |].
        unfold ready_at. now rewrite Ha.
      * destruct (processes (rt (nxt w)) !! k') as [a'|] eqn:Hk0.
        -- destruct (Hok k' a' Hk0) as (r' & Hr' & Hpid'). unfold heap in Hr'.
           destruct (ready r') eqn:Hrdy.
           ++ rewrite HT2 in Hk'.
              ** assert (a' = a) as -> by congruence.
                 destruct (Hok k a Hk) as (r0 & Hr0 & Hpid0). unfold heap in Hr0.
                 congruence.
              ** intros a2 Hin2. apply elem_of_map_to_list in Hin2.
                 assert (a2 = a') as -> by congruence.
                 unfold ready_at. now rewrite Hr'.
           ++ rewrite (HT1 k' a') in Hk'; [discriminate | |].
              ** apply elem_of_map_to_list. exact Hk0.
              ** unfold ready_at. now rewrite Hr'.
        -- rewrite HT2 in Hk'; [congruence|].
           intros a2 Hin2. apply elem_of_map_to_list in Hin2. congruence.
Qed.

Lemma in_calls_of (c : call) (r : Z) (evs : list event) :
  In (EvCall c r) evs -> In (c, r) (calls_of evs).
Proof.
  intros H. apply list_elem_of_In. apply list_elem_of_In in H.
  unfold calls_of. apply list_elem_of_omap. exists (EvCall c r). auto.
Qed.

(** C4: in the child, [nxt_process_create] walks the inherited table,
    inserts the child's own record and only then runs the bootstrap.
    [w1] is the world in which the run enters [nxt_process_start]: the run
    from [w] is the bootstrap run in [w1] followed by the store of the
    ready flag, and up to [w1] the trace has gained the fork, the two
    resets, the events [walk] of the walk - removals and destructions
    only - and, last, the insertion.  In [w1] the child's record is in the
    table under the child's pid and is not ready.  At the end every record
    that was not ready is gone from the table; every record that was ready
    has had its incoming and its outgoing mappings destroyed, during the
    walk, and stays in the table; and the child's record is ready exactly
    when the bootstrap entered in [w1] returned - every call of the
    bootstrap then lies in the trace behind the insertion, each with its
    success value - the only other outcome being [exit(1)] with the record
    not ready. *)
Theorem nxt_process_create_child (process : Z) (pr : nxt_process_t)
    (self : positive) (w : world) :
  e_fork (env w) = Child self ->
  fault_of SFork w = None ->
  heap w !! process = Some pr ->
  ready pr = false ->
  table_ok w ->
  (forall k, table w !! k <> Some process) ->
  let res := nxt_process_create process w in
  let cs := calls_of (drop (length (trace w)) (trace res.2)) in
  exists w1 walk pr',
    nxt_process_create process w =
      ((nxt_process_start process;; store process (proc_set_ready true));;
       ret 0) w1 /\
    since w w1 ([EvCall Fork 0; EvCall PortResetNextId 0; EvCall EngineThreadAdopt 0]
                  ++ walk ++ [EvCall (RuntimeProcessAdd process) 0]) /\
    forallb is_walk walk = true /\
    heap w1 !! process = Some (proc_set_pid (Z.pos self) pr) /\
    table w1 !! Z.pos self = Some process /\
    (res.1 = Ret 0 \/ res.1 = Exited 1) /\
    (res.1 = Ret 0 <-> (nxt_process_start process w1).1 = Ret tt) /\
    trace res.2 = trace (nxt_process_start process w1).2 /\
    (forall k a r, table w !! k = Some a -> heap w !! a = Some r ->
       ready r = false -> forall k', table res.2 !! k' <> Some a) /\
    (forall k a r, table w !! k = Some a -> heap w !! a = Some r ->
       ready r = true ->
       heap res.2 !! a = Some (released r) /\
       In (EvCall (PortMmapsDestroy (incoming r)) 0) walk /\
       In (EvCall (PortMmapsDestroy (outgoing r)) 0) walk /\
       In (PortMmapsDestroy (incoming r), 0) cs /\
       In (PortMmapsDestroy (outgoing r), 0) cs /\
       (k <> Z.pos self -> table res.2 !! k = Some a)) /\
    table res.2 !! Z.pos self = Some process /\
    heap res.2 !! process = Some pr' /\
    pid pr' = Z.pos self /\
    (ready pr' = true <-> (nxt_process_start process w1).1 = Ret tt) /\
    (ready pr' = true ->
       calls_of (drop (length (trace w1)) (trace res.2)) =
         bootstrap_calls (proc_set_pid (Z.pos self) pr) w1).
Proof.
  intros Hside Hfork Hp Hnr Hok Hfresh.
  destruct (nxt_process_create_child_run process pr self w Hside Hfork Hp Hok Hfresh)
    as (w1 & walk & Heq & Hs1 & Hwk & Hp1 & Hself & Hwalk).
  destruct (nxt_process_start_run process _ w1 Hp1)
    as (o & w2 & evs2 & Hrun2 & Ho & Hs2 & Hheap2 & Htab2 & _).
  pose proof (nxt_process_start_ok process _ w1 w2 Hp1) as Hok2.
  cbn zeta. exists w1, walk.
  assert (forall c, In (EvCall c 0) walk ->
            In (c, 0) (calls_of
              (([EvCall Fork 0; EvCall PortResetNextId 0; EvCall EngineThreadAdopt 0]
                  ++ walk ++ [EvCall (RuntimeProcessAdd process) 0]) ++ evs2))) as Hin.
  { intros c Hc. apply in_calls_of. apply in_or_app. left.
    apply in_or_app. right. apply in_or_app. left. exact Hc. }
  assert ((nxt_process_start process w1).1 = o) as Hfst
    by (rewrite Hrun2; reflexivity).
  assert ((nxt_process_start process w1).2 = w2) as Hsnd
    by (rewrite Hrun2; reflexivity).
  assert (drop (length (trace w)) (trace w2) =
            ([EvCall Fork 0; EvCall PortResetNextId 0; EvCall EngineThreadAdopt 0]
               ++ walk ++ [EvCall (RuntimeProcessAdd process) 0]) ++ evs2) as Hdrop.
  { unfold since in Hs1, Hs2. rewrite Hs2, Hs1, <- app_assoc, drop_app_length.
    reflexivity. }
  rewrite Hfst, Hsnd, Heq. unfold bind. rewrite Hrun2.
  destruct Ho as [-> | ->].
  - unfold store, bind, load, modify, ret. rewrite Hheap2, Hp1. cbn [fst snd].
    exists (proc_set_ready true (proc_set_pid (Z.pos self) pr)).
    destruct (Hok2 Hrun2) as (Hcalls & _).
    unfold heap, table, the_rt in *. cbn.
    rewrite Hdrop, Htab2, Hheap2.
    split; [reflexivity|]. split; [exact Hs1|]. split; [exact Hwk|].
    split; [reflexivity|]. split; [exact Hself|]. split; [auto|].
    split; [split; auto|]. split; [reflexivity|].
    split; [|split; [|split; [|split; [|split; [|split]]]]].
    + intros k a r Hk Ha Hr. specialize (Hwalk k a r Hk Ha). rewrite Hr in Hwalk.
      exact Hwalk.
    + intros k a r Hk Ha Hr. specialize (Hwalk k a r Hk Ha). rewrite Hr in Hwalk.
      destruct Hwalk as (Hh & Hi & Ho & Ht).
      rewrite lookup_insert_ne by (intros <-; exact (Hfresh k Hk)).
      split; [exact Hh|]. split; [exact Hi|]. split; [exact Ho|].
      split; [apply Hin; exact Hi|]. split; [apply Hin; exact Ho|]. exact Ht.
    + exact Hself.
    + apply lookup_insert_eq.
    + reflexivity.
    + split; auto.
    + intros _. exact Hcalls.
  - cbn [fst snd].
    exists (proc_set_pid (Z.pos self) pr).
    unfold heap, table, the_rt in *.
    rewrite Hdrop, Htab2, Hheap2.
    split; [reflexivity|]. split; [exact Hs1|]. split; [exact Hwk|].
    split; [exact Hp1|]. split; [exact Hself|]. split; [auto|].
    split; [split; discriminate|]. split; [reflexivity|].
    split; [|split; [|split; [|split; [|split; [|split]]]]].
    + intros k a r Hk Ha Hr. specialize (Hwalk k a r Hk Ha). rewrite Hr in Hwalk.
      exact Hwalk.
    + intros k a r Hk Ha Hr. specialize (Hwalk k a r Hk Ha). rewrite Hr in Hwalk.
      destruct Hwalk as (Hh & Hi & Ho & Ht).
      split; [exact Hh|]. split; [exact Hi|]. split; [exact Ho|].
      split; [apply Hin; exact Hi|]. split; [apply Hin; exact Ho|]. exact Ht.
    + exact Hself.
    + exact Hp1.
    + reflexivity.
    + cbn. rewrite Hnr. split; discriminate.
    + cbn. rewrite Hnr. discriminate.
Qed.

Lemma sample_table_ok (faults : list (sys * nat * Z)) (side : fork_side) :
  table_ok (sample_world faults side).
Proof.
  intros k a H. unfold table, the_rt, heap in *. cbn in H.
  repeat (apply lookup_insert_Some in H as [[<- <-] | [_ H]];
          [eexists; split; [vm_compute; reflexivity | reflexivity]|]).
  rewrite lookup_empty in H. discriminate H.
Qed.

Lemma sample_process_fresh (faults : list (sys * nat * Z)) (side : fork_side) (k : Z) :
  table (sample_world faults side) !! k <> Some 5000.
Proof.
  intros H. unfold table, the_rt in H. cbn in H.
  repeat (apply lookup_insert_Some in H as [[_ H] | [_ H]]; [discriminate H|]).
  rewrite lookup_empty in H. discriminate H.
Qed.

Lemma nxt_process_create_child_witness :
  (forall k', table (nxt_process_create 5000 (sample_world [] (Child 4242))).2 !! k'
              <> Some 2000) /\
  table (nxt_process_create 5000 (sample_world [] (Child 4242))).2 !! 4242
    = Some 5000.
Proof.
  destruct (nxt_process_create_child 5000
              (mk_process 0 [9001] false 0 router_init [] []) 4242%positive
              (sample_world [] (Child 4242)))
    as (w1 & walk & pr' & _ & _ & _ & _ & _ & _ & _ & _ & Hgone & _ & Hself & _).
  - reflexivity.
  - vm_compute. reflexivity.
  - vm_compute. reflexivity.
  - reflexivity.
  - apply sample_table_ok.
  - apply sample_process_fresh.
  - split; [|exact Hself].
    apply (Hgone 200 2000 (mk_process 200 [] false 0 router_init [4] [5]));
      vm_compute; reflexivity.
Defined.

(** * Further properties of the code *)

(** *** Credential resolution *)

Ltac run_cred :=
  repeat first
    [ progress cbn
    | rewrite of_nat_not_minus_one
    | rewrite Z.ltb_irrefl
    | rewrite andb_false_r
    | rewrite orb_false_r
    | match goal with
      | H : ?x = _ |- context [match ?x with _ => _ end] => rewrite H
      | H : (?x =? 0) = _ |- context [?x =? 0] => rewrite H
      | |- context [fault_of ?k ?w] => destruct (fault_of k w) eqn:?
      | |- context [assoc ?k ?l] => destruct (assoc k l) eqn:?
      | |- context [?a >? ?b] => destruct (a >? b) eqn:?
      | |- context [if ?x =? 0 then _ else _] => destruct (x =? 0) eqn:?
      end ].

(** X1: when [getpwnam] returns [NULL], [nxt_user_cred_get] returns
    [NXT_ERROR] with the credential untouched after that one call and one
    critical log entry; the entry says "not found" exactly when [errno] is
    0 after the call, whatever [errno] held before. *)
Theorem nxt_user_cred_get_unknown_user (uc : nxt_user_cred_t)
    (group : option string) (e : Z) (w : world) :
  fault_of SGetpwnam w = Some e \/
    (fault_of SGetpwnam w = None /\
     assoc (user uc) (e_passwd (env w)) = None /\ e = 0) ->
  let r := nxt_user_cred_get uc group w in
  r.1 = Ret (NXT_ERROR, uc) /\
  since w r.2
    [EvCall (Getpwnam (user uc)) 0;
     EvLog NXT_LOG_CRIT
       (if e =? 0 then MsgUserNotFound (user uc)
        else MsgGetpwnamFailed (user uc) e)] /\
  os_uid (os r.2) = os_uid (os w) /\
  os_gid (os r.2) = os_gid (os w) /\
  os_groups (os r.2) = os_groups (os w).
Proof.
  intros H. unfold nxt_user_cred_get, since. autounfold with proc. cbn.
  change (fault_of SGetpwnam _) with (fault_of SGetpwnam w).
  destruct H as [H | (H & Ha & ->)]; rewrite H; cbn; [|rewrite Ha; cbn].
  - destruct (e =? 0); cbn; rewrite <- app_assoc; repeat split.
  - rewrite <- app_assoc. repeat split.
Qed.

Lemma nxt_user_cred_get_unknown_user_witness :
  (nxt_user_cred_get (mk_cred "ghost" 7 8 None 0) None
     (sample_world [] (Child 4242))).1 = Ret (NXT_ERROR, mk_cred "ghost" 7 8 None 0).
Proof.
  refine (proj1 (nxt_user_cred_get_unknown_user (mk_cred "ghost" 7 8 None 0) None 0
                   (sample_world [] (Child 4242)) _)).
  right. repeat split.
Defined.

(** X2: a resolution by a process that is not the super-user, when it
    succeeds, has found the account, stores its uid and the resolved base
    gid, leaves [gids] and [ngroups] alone, makes no call besides the two
    lookups - [getgrnam] only for a non-empty group name - and leaves the
    process's own groups alone. *)
Theorem nxt_user_cred_get_unprivileged (uc uc' : nxt_user_cred_t)
    (group : option string) (w : world) :
  os_uid (os w) <> 0 ->
  (nxt_user_cred_get uc group w).1 = Ret (NXT_OK, uc') ->
  let cs := calls_of (drop (length (trace w))
                        (trace (nxt_user_cred_get uc group w).2)) in
  exists pwd,
    assoc (user uc) (e_passwd (env w)) = Some pwd /\
    uc' = mk_cred (user uc) (pw_uid pwd) (resolved_gid group pwd w)
                  (gids uc) (ngroups uc) /\
    (forall c r, In (c, r) cs ->
       c = Getpwnam (user uc) \/
       exists g, c = Getgrnam g /\ group = Some g /\ g <> ""%string) /\
    os_groups (os (nxt_user_cred_get uc group w).2) = os_groups (os w).
Proof.
  intros Hu. apply Z.eqb_neq in Hu.
  unfold nxt_user_cred_get, resolved_gid. autounfold with proc. cbn.
  destruct group as [[|c g]|]; run_cred.
  all: try discriminate.
  all: intros [= <-]; eexists; split; [reflexivity|]; split; [reflexivity|].
  all: rewrite <- ?app_assoc, drop_app_length; cbn; split; [|reflexivity].
  all: intros c0 r0 Hin; case_in Hin; eauto.
  all: right; eexists; repeat split; discriminate.
Qed.

Lemma nxt_user_cred_get_unprivileged_witness :
  exists pwd,
    assoc "www"%string (e_passwd (env (with_os (mk_os 100 33 33 [33] 18 false ∅ 0)
                                          (sample_world [] (Child 4242))))) = Some pwd /\
    mk_cred "www" 33 1000 None 0 = mk_cred "www" (pw_uid pwd)
      (resolved_gid (Some "web"%string) pwd
         (with_os (mk_os 100 33 33 [33] 18 false ∅ 0) (sample_world [] (Child 4242))))
      None 0.
Proof.
  destruct (nxt_user_cred_get_unprivileged (mk_cred "www" 0 0 None 0)
              (mk_cred "www" 33 1000 None 0) (Some "web"%string)
              (with_os (mk_os 100 33 33 [33] 18 false ∅ 0)
                 (sample_world [] (Child 4242))))
    as (pwd & H1 & H2 & _).
  - cbn. lia.
  - vm_compute. reflexivity.
  - exists pwd. split; assumption.
Defined.

(** *** Group enumeration *)

(** What a successful enumeration leaves in the credential. *)
Lemma groups_get_ok (uc uc' : nxt_user_cred_t) (w : world) :
  Z.of_nat (length (os_groups (os w))) <= NGROUPS_MAX (env w) ->
  (nxt_user_groups_get uc w).1 = Ret (NXT_OK, uc') ->
  let target := grouplist (user uc) (base_gid uc) (e_group (env w)) in
  exists buf,
    gids uc' = Some buf /\
    ngroups uc' = Z.of_nat (length target) /\
    take (Z.to_nat (ngroups uc')) buf = target /\
    user uc' = user uc /\ uid uc' = uid uc /\ base_gid uc' = base_gid uc /\
    os_groups (os (nxt_user_groups_get uc w).2) = os_groups (os w).
Proof.
  intros Hn. unfold nxt_user_groups_get. autounfold with proc. run.
  all: try discriminate.
  - apply Z.gtb_lt in Heqb. lia.
  - intros [= <-]. eexists. cbn. split; [reflexivity|]. split; [reflexivity|].
    split; [|repeat split].
    unfold grouplist. rewrite Nat2Z.id.
    match goal with
    | |- take _ (?g :: ?l ++ _) = _ => apply (take_app_length (g :: l))
    end.
Qed.


(** X3: when the enumeration is carried out (the process is in no more
    than [NGROUPS_MAX] groups) and returns [NXT_OK], the credential's
    [gids] holds, in its first [ngroups] cells, the group list
    [initgroups] computes for the user and the base gid - the target
    user's groups, not the resolving process's - and the process has its
    own groups back. *)
Theorem nxt_user_groups_get_result (uc uc' : nxt_user_cred_t) (w : world) :
  Z.of_nat (length (os_groups (os w))) <= NGROUPS_MAX (env w) ->
  (nxt_user_groups_get uc w).1 = Ret (NXT_OK, uc') ->
  let target := grouplist (user uc) (base_gid uc) (e_group (env w)) in
  exists buf,
    gids uc' = Some buf /\
    ngroups uc' = Z.of_nat (length target) /\
    take (Z.to_nat (ngroups uc')) buf = target /\
    user uc' = user uc /\ uid uc' = uid uc /\ base_gid uc' = base_gid uc /\
    os_groups (os (nxt_user_groups_get uc w).2) = os_groups (os w).
Proof. apply groups_get_ok. Qed.

Lemma nxt_user_groups_get_result_witness :
  exists buf,
    Some [33; 1000; 50] = Some buf /\
    3 = Z.of_nat (length (grouplist "www" 33
                            (e_group (env (sample_world [] (Child 4242)))))) /\
    take (Z.to_nat 3) buf =
      grouplist "www" 33 (e_group (env (sample_world [] (Child 4242)))).
Proof.
  destruct (nxt_user_groups_get_result www_cred
              (mk_cred "www" 33 33 (Some [33; 1000; 50]) 3)
              (sample_world [] (Child 4242)))
    as (buf & H1 & H2 & H3 & _).
  - vm_compute. discriminate.
  - vm_compute. reflexivity.
  - exists buf. repeat split; assumption.
Defined.


(** *** Applying a credential *)

(** The process after a successful [nxt_user_cred_set]. *)
Lemma cred_set_ok (uc : nxt_user_cred_t) (w : world) :
  (nxt_user_cred_set uc w).1 = Ret NXT_OK ->
  let o := os (nxt_user_cred_set uc w).2 in
  os_gid o = base_gid uc /\
  os_uid o = uid uc /\
  os_groups o = credential_groups uc w.
Proof.
  unfold nxt_user_cred_set, credential_groups. autounfold with proc.
  destruct (gids uc); run; try discriminate; repeat split.
Qed.

(** X5: when [nxt_user_cred_set] returns [NXT_OK] the process has the
    credential's base gid, its uid, and as supplementary groups the first
    [ngroups] cells of [gids], or, with [gids] absent, the list
    [initgroups] computes for the user. *)
Theorem nxt_user_cred_set_result (uc : nxt_user_cred_t) (w : world) :
  (nxt_user_cred_set uc w).1 = Ret NXT_OK ->
  let o := os (nxt_user_cred_set uc w).2 in
  os_gid o = base_gid uc /\
  os_uid o = uid uc /\
  os_groups o = credential_groups uc w.
Proof. apply cred_set_ok. Qed.

Lemma nxt_user_cred_set_result_witness :
  os_groups (os (nxt_user_cred_set www_cred (sample_world [] (Child 4242))).2)
    = [33; 1000; 50].
Proof.
  refine (proj2 (proj2 (nxt_user_cred_set_result www_cred
                          (sample_world [] (Child 4242)) _))).
  vm_compute. reflexivity.
Defined.

(** X6: the emulation is faithful.  A credential whose groups were
    enumerated in the main process and the same credential without [gids]
    (the fallback that calls [initgroups] in the worker) give a worker that
    applies them the same gid, uid and supplementary groups, as long as
    both processes see the same group database. *)
Theorem enumerated_groups_match_fallback (uc uc' : nxt_user_cred_t)
    (w w1 w2 : world) :
  Z.of_nat (length (os_groups (os w))) <= NGROUPS_MAX (env w) ->
  (nxt_user_groups_get uc w).1 = Ret (NXT_OK, uc') ->
  e_group (env w1) = e_group (env w) ->
  e_group (env w2) = e_group (env w) ->
  (nxt_user_cred_set uc' w1).1 = Ret NXT_OK ->
  (nxt_user_cred_set (cred_set_gids None uc') w2).1 = Ret NXT_OK ->
  let o1 := os (nxt_user_cred_set uc' w1).2 in
  let o2 := os (nxt_user_cred_set (cred_set_gids None uc') w2).2 in
  os_gid o1 = os_gid o2 /\ os_uid o1 = os_uid o2 /\
  os_groups o1 = os_groups o2.
Proof.
  intros Hn Hget He1 He2 H1 H2.
  destruct (groups_get_ok uc uc' w Hn Hget)
    as (buf & Hg & _ & Ht & Hu & _ & Hb & _).
  destruct (cred_set_ok _ _ H1) as (G1 & U1 & S1).
  destruct (cred_set_ok _ _ H2) as (G2 & U2 & S2).
  cbn zeta. rewrite G1, G2, U1, U2, S1, S2.
  unfold credential_groups. cbn. rewrite Hg, Ht, He2, Hu, Hb. auto.
Qed.

Lemma enumerated_groups_match_fallback_witness :
  os_groups (os (nxt_user_cred_set (mk_cred "www" 33 33 (Some [33; 1000; 50]) 3)
                   (sample_world [] (Child 4242))).2) =
  os_groups (os (nxt_user_cred_set (mk_cred "www" 33 33 None 3)
                   (sample_world [] (Child 4242))).2).
Proof.
  refine (proj2 (proj2 (enumerated_groups_match_fallback www_cred
            (mk_cred "www" 33 33 (Some [33; 1000; 50]) 3)
            (sample_world [] (Child 4242)) (sample_world [] (Child 4242))
            (sample_world [] (Child 4242)) _ _ _ _ _ _))).
  - vm_compute. discriminate.
  - vm_compute. reflexivity.
  - reflexivity.
  - reflexivity.
  - vm_compute. reflexivity.
  - vm_compute. reflexivity.
Defined.

(** X20: [nxt_user_cred_set] undoes nothing.  When [setuid] fails the
    status is [NXT_ERROR] and the process keeps its uid, but its gid and
    its supplementary groups are already those of the credential. *)
Theorem nxt_user_cred_set_no_rollback (uc : nxt_user_cred_t) (w : world) :
  In (Setuid (uid uc), -1)
     (calls_of (drop (length (trace w)) (trace (nxt_user_cred_set uc w).2))) ->
  (nxt_user_cred_set uc w).1 = Ret NXT_ERROR /\
  os_uid (os (nxt_user_cred_set uc w).2) = os_uid (os w) /\
  os_gid (os (nxt_user_cred_set uc w).2) = base_gid uc /\
  os_groups (os (nxt_user_cred_set uc w).2) = credential_groups uc w.
Proof.
  unfold nxt_user_cred_set, credential_groups. autounfold with proc.
  destruct (gids uc); run; tidy_trace; rewrite drop_app_length; cbn;
    intros H; try (exfalso; intuition discriminate); repeat split.
Qed.

Lemma nxt_user_cred_set_no_rollback_witness :
  os_groups (os (nxt_user_cred_set www_cred
                   (sample_world [(SSetuid, 0%nat, 1)] (Child 4242))).2)
    = [33; 1000; 50].
Proof.
  refine (proj2 (proj2 (proj2 (nxt_user_cred_set_no_rollback www_cred
            (sample_world [(SSetuid, 0%nat, 1)] (Child 4242)) _)))).
  vm_compute. tauto.
Defined.

(** *** Daemonization, further *)

Lemma lowest_free_from_spec (fds : gmap Z string) (fuel : nat) :
  forall n,
    fds !! lowest_free_from fuel n fds = None \/
    (lowest_free_from fuel n fds = n + Z.of_nat fuel /\
     forall i, n <= i < n + Z.of_nat fuel -> is_Some (fds !! i)).
Proof.
  induction fuel as [|fuel IH]; intros n; cbn [lowest_free_from].
  - right. split; [lia|]. intros i Hi. lia.
  - destruct (fds !! n) as [f|] eqn:Hn; [|left; exact Hn].
    destruct (IH (n + 1)) as [H | [H1 H2]]; [left; exact H|].
    right. split; [lia|]. intros i Hi.
    destruct (decide (i = n)) as [->|Hne]; [eauto|]. apply H2. lia.
Qed.

(** The descriptor [open] hands out is not in use. *)
Lemma lowest_free_is_free (fds : gmap Z string) :
  fds !! lowest_free fds = None.
Proof.
  unfold lowest_free.
  destruct (lowest_free_from_spec fds (size fds) 0) as [H | [H1 H2]]; [exact H|].
  rewrite H1. destruct (fds !! (0 + Z.of_nat (size fds))) as [f|] eqn:Hf; [|reflexivity].
  exfalso.
  assert (list_to_set (seqZ 0 (Z.of_nat (size fds) + 1)) ⊆ (dom fds : gset Z)) as Hsub.
  { intros i Hi. apply elem_of_list_to_set, elem_of_seqZ in Hi.
    apply elem_of_dom.
    destruct (decide (i = 0 + Z.of_nat (size fds))) as [->|Hne]; [eauto|].
    apply H2. lia. }
  apply subseteq_size in Hsub.
  rewrite size_list_to_set in Hsub by apply NoDup_seqZ.
  rewrite length_seqZ, size_dom in Hsub. lia.
Qed.

Ltac run_daemon Hside :=
  repeat first
    [ progress cbn
    | rewrite Hside
    | rewrite lowest_free_not_minus_one
    | rewrite lookup_insert_eq
    | rewrite lookup_after_dup2
    | match goal with
      | |- context [fault_of ?k ?w] => destruct (fault_of k w) eqn:?
      | |- context [?a >? ?b] => destruct (a >? b) eqn:?
      end ].

(** X7: [nxt_process_daemon] ends in one of three ways: the parent leaves
    with [exit(0)] right after [fork] - no session, mask or descriptor is
    touched; or it returns [NXT_OK]; or it returns [NXT_ERROR] after
    exactly one critical log entry, its last event.  A failure never makes
    the child exit and nothing done before it is undone: no descriptor is
    closed, so the null device stays open when [dup2] fails. *)
Theorem nxt_process_daemon_outcomes (w : world) :
  let r := nxt_process_daemon w in
  let evs := drop (length (trace w)) (trace r.2) in
  (r.1 = Exited 0 /\
   (exists child, e_fork (env w) = Parent child /\
                  evs = [EvCall Fork (Z.pos child)]) /\
   os r.2 = os w /\ nxt r.2 = nxt w) \/
  r.1 = Ret NXT_OK \/
  (r.1 = Ret NXT_ERROR /\
   (exists pre m, evs = pre ++ [EvLog NXT_LOG_CRIT m] /\
                  forall l m', ~ In (EvLog l m') pre) /\
   (forall d ret, ~ In (Close d, ret) (calls_of evs)) /\
   (forall fd, In (Open dev_null, fd) (calls_of evs) -> fd <> -1 ->
      os_fds (os r.2) !! fd = Some dev_null)).
Proof.
  unfold nxt_process_daemon. autounfold with proc.
  destruct (e_fork (env w)) eqn:Hside; run_daemon Hside.
  all: rewrite <- ?app_assoc, drop_app_length; cbn.
  all: try (right; left; reflexivity).
  all: try (left; split; [reflexivity|]; split; [eauto|]; split;
            [destruct (os w) | destruct (nxt w)]; reflexivity).
  all: right; right; split; [reflexivity|]; split; [|split].
  all: try (intros d ret H; intuition discriminate).
  all: try match goal with
           | |- exists pre m, ?l = _ /\ _ =>
               exists (take (length l - 1) l); eexists; split; [reflexivity|];
               cbn; intros l0 m0 H; intuition discriminate
           end.
  all: intros fd H Hfd; cbn in H; repeat (destruct H as [H|H]);
    try contradiction; try discriminate H; injection H as <-.
  all: try (exfalso; apply Hfd; reflexivity).
  all: rewrite ?lookup_after_dup2, ?lookup_insert_eq; reflexivity.
Qed.

(** X8: after a daemonization that returned [NXT_OK] the process is the
    forked child: its pid is cached in [nxt_pid], the cached tid is
    cleared, it leads a new session, its mask is 0, standard input and
    output name the null device, and every descriptor that was open, other
    than 0 and 1, still names its file - standard error included. *)
Theorem nxt_process_daemon_detached (w w' : world) :
  nxt_process_daemon w = (Ret NXT_OK, w') ->
  exists self,
    e_fork (env w) = Child self /\
    os_pid (os w') = Z.pos self /\
    nxt_pid (nxt w') = Z.pos self /\
    tid (nxt w') = 0 /\
    os_session_leader (os w') = true /\
    os_umask (os w') = 0 /\
    os_fds (os w') !! STDIN_FILENO = Some dev_null /\
    os_fds (os w') !! STDOUT_FILENO = Some dev_null /\
    (forall d f, os_fds (os w) !! d = Some f ->
       d <> STDIN_FILENO -> d <> STDOUT_FILENO ->
       os_fds (os w') !! d = Some f).
Proof.
  unfold nxt_process_daemon. autounfold with proc.
  pose proof (lowest_free_is_free (os_fds (os w))) as Hfree.
  pose proof (lowest_free_from_ge (size (os_fds (os w))) 0 (os_fds (os w))) as Hge.
  fold (lowest_free (os_fds (os w))) in Hge.
  destruct (e_fork (env w)) eqn:Hside; run_daemon Hside.
  all: try discriminate.
  all: intros [= <-]; cbn.
  all: match goal with H : (_ >? _) = _ |- _ => rename H into Hfd end.
  all: repeat match goal with H : fault_of _ _ = _ |- _ => clear H end.
  all: rewrite Z.gtb_ltb in Hfd.
  all: eexists; split; [reflexivity|]; do 5 (split; [reflexivity|]).
  - apply Z.ltb_lt in Hfd. unfold STDERR_FILENO, STDIN_FILENO, STDOUT_FILENO in *.
    split; [|split].
    + rewrite lookup_delete_ne by lia. rewrite lookup_insert_ne by lia.
      apply lookup_insert_eq.
    + rewrite lookup_delete_ne by lia. apply lookup_insert_eq.
    + intros d f Hd H0 H1.
      assert (d <> lowest_free (os_fds (os w))) by congruence.
      rewrite lookup_delete_ne by auto.
      rewrite !lookup_insert_ne by auto. exact Hd.
  - unfold STDERR_FILENO, STDIN_FILENO, STDOUT_FILENO in *.
    split; [|split].
    + rewrite lookup_insert_ne by lia. apply lookup_insert_eq.
    + apply lookup_insert_eq.
    + intros d f Hd H0 H1.
      assert (d <> lowest_free (os_fds (os w))) by congruence.
      rewrite !lookup_insert_ne by auto. exact Hd.
Qed.

Lemma nxt_process_daemon_detached_witness :
  os_fds (os (nxt_process_daemon (sample_world [] (Child 4242))).2) !! 2 = Some tty.
Proof.
  destruct (nxt_process_daemon_detached (sample_world [] (Child 4242))
              (nxt_process_daemon (sample_world [] (Child 4242))).2)
    as (self & _ & _ & _ & _ & _ & _ & _ & _ & H).
  - vm_compute. reflexivity.
  - apply H; [vm_compute; reflexivity | discriminate | discriminate].
Defined.

(** *** Bootstrap, further *)

(** X9: a bootstrap that returns made exactly the calls of
    [bootstrap_calls], in that order: title and random seed; the three
    calls of the privilege switch when a credential is configured and the
    process is super-user, none of them otherwise; engine lookup and
    rebind; thread pool with its 60 s idle time; read side of the main
    port closed and its write side enabled; write side of the own first
    port closed; the entry point; the own port enabled; and last, once, the
    ready message to the main port under the role's stream id. *)
Theorem nxt_process_start_calls (process : Z) (p : nxt_process_t) (w w' : world) :
  heap w !! process = Some p ->
  nxt_process_start process w = (Ret tt, w') ->
  calls_of (drop (length (trace w)) (trace w')) = bootstrap_calls p w.
Proof.
  intros Hp Hrun. exact (proj1 (nxt_process_start_ok process p w w' Hp Hrun)).
Qed.

Lemma nxt_process_start_calls_witness :
  calls_of (trace (nxt_process_start 5000 (sample_world [] (Child 4242))).2) =
    [(ProcessTitle "router", 0); (RandomInit, 0); (ServiceGet "epoll", 1);
     (EngineChange 8, 0); (ThreadPoolCreate 2 60000000000, 0);
     (PortReadClose 9000, 0); (PortWriteEnable 9000, 0);
     (PortWriteClose 9001, 0); (Start 11 12, 0); (PortEnable 9001 13, 0);
     (PortSocketWrite 9000 5, 0)].
Proof.
  refine (nxt_process_start_calls 5000
            (mk_process 0 [9001] false 0 router_init [] [])
            (sample_world [] (Child 4242))
            (nxt_process_start 5000 (sample_world [] (Child 4242))).2 _ _).
  - vm_compute. reflexivity.
  - vm_compute. reflexivity.
Defined.

(** X10: a bootstrap that returns after a privilege switch runs under the
    credential's uid, base gid and supplementary groups; one that makes no
    switch - no credential configured, or not super-user - leaves the
    kernel's view of the process as it was. *)
Theorem nxt_process_start_identity (process : Z) (p : nxt_process_t) (w w' : world) :
  heap w !! process = Some p ->
  nxt_process_start process w = (Ret tt, w') ->
  match switches_to p w with
  | Some uc => os_uid (os w') = uid uc /\ os_gid (os w') = base_gid uc /\
               os_groups (os w') = credential_groups uc w
  | None => os w' = os w
  end.
Proof.
  intros Hp Hrun. apply (nxt_process_start_ok process p w w' Hp Hrun).
Qed.

Lemma nxt_process_start_identity_witness :
  os_uid (os (nxt_process_start 6000 worker_world).2) = 33 /\
  os_gid (os (nxt_process_start 6000 worker_world).2) = 33 /\
  os_groups (os (nxt_process_start 6000 worker_world).2) = [33; 1000; 50].
Proof.
  refine (nxt_process_start_identity 6000
            (mk_process 0 [9001] false 0 worker_init [] [])
            worker_world (nxt_process_start 6000 worker_world).2 _ _).
  - vm_compute. reflexivity.
  - vm_compute. reflexivity.
Defined.

Lemma wrap32_testbit (x i : Z) :
  0 <= i < 32 -> Z.testbit (wrap32 x) i = Z.testbit x i.
Proof.
  intros Hi. unfold wrap32. apply Z.mod_pow2_bits_low. lia.
Qed.

(** [1U << t] for a shift below the width of [unsigned]. *)
Lemma shiftl_1_small (t : Z) :
  0 <= t < 32 -> wrap32 (Z.shiftl 1 t) = Z.shiftl 1 t.
Proof.
  intros Ht. unfold wrap32. rewrite Z.shiftl_1_l. apply Z.mod_small.
  split; [apply Z.pow_nonneg; lia | apply Z.pow_lt_mono_r; lia].
Qed.

(** X11: a bootstrap that returns has set the bit of the role's type in
    the runtime's [types] bitmap and has kept every bit that was set,
    for a type below the width of the bitmap. *)
Theorem nxt_process_start_types (process : Z) (p : nxt_process_t) (w w' : world) :
  heap w !! process = Some p ->
  nxt_process_start process w = (Ret tt, w') ->
  0 <= type (init p) < 32 ->
  Z.testbit (types (the_rt w')) (type (init p)) = true /\
  forall i, 0 <= i < 32 ->
    Z.testbit (types (the_rt w)) i = true ->
    Z.testbit (types (the_rt w')) i = true.
Proof.
  intros Hp Hrun Ht.
  destruct (nxt_process_start_ok process p w w' Hp Hrun) as (_ & -> & _).
  split.
  - rewrite wrap32_testbit, Z.lor_spec, wrap32_testbit by lia.
    rewrite Z.shiftl_1_l, Z.pow2_bits_true by lia. apply orb_true_r.
  - intros i Hi Hb. rewrite wrap32_testbit, Z.lor_spec, Hb by lia. reflexivity.
Qed.

Lemma nxt_process_start_types_witness :
  Z.testbit (types (the_rt (nxt_process_start 5000 (sample_world [] (Child 4242))).2)) 3
    = true.
Proof.
  refine (proj1 (nxt_process_start_types 5000
            (mk_process 0 [9001] false 0 router_init [] [])
            (sample_world [] (Child 4242))
            (nxt_process_start 5000 (sample_world [] (Child 4242))).2 _ _ _)).
  - vm_compute. reflexivity.
  - vm_compute. reflexivity.
  - cbn. lia.
Defined.

(** *** Process creation, further *)

(** X12: in the parent, [nxt_process_create] returns the child's pid,
    stores it in the record and enters the record in the table under that
    pid; the record's other fields - its ready flag among them -, the other
    entries and records, and the parent's own process state are as before,
    and no step of the bootstrap is run. *)
Theorem nxt_process_create_parent (process : Z) (pr : nxt_process_t)
    (child : positive) (w : world) :
  e_fork (env w) = Parent child ->
  fault_of SFork w = None ->
  heap w !! process = Some pr ->
  let r := nxt_process_create process w in
  r.1 = Ret (Z.pos child) /\
  table r.2 = <[Z.pos child := process]> (table w) /\
  heap r.2 = <[process := proc_set_pid (Z.pos child) pr]> (heap w) /\
  since w r.2 [EvCall Fork (Z.pos child); EvCall (RuntimeProcessAdd process) 0] /\
  os r.2 = os w /\
  types (the_rt r.2) = types (the_rt w) /\
  nxt_pid (nxt r.2) = nxt_pid (nxt w).
Proof.
  intros Hside Hf Hp. unfold nxt_process_create, since.
  autounfold with proc in *. cbn. rewrite Hf. cbn. rewrite Hside. cbn.
  rewrite Hp. cbn. rewrite lookup_insert_eq. cbn.
  rewrite <- app_assoc. repeat split.
Qed.

Lemma nxt_process_create_parent_witness :
  table (nxt_process_create 5000 (sample_world [] (Parent 4242))).2 !! 4242
    = Some 5000.
Proof.
  rewrite (proj1 (proj2 (nxt_process_create_parent 5000
             (mk_process 0 [9001] false 0 router_init [] []) 4242%positive
             (sample_world [] (Parent 4242)) eq_refl eq_refl eq_refl))).
  apply lookup_insert_eq.
Defined.

Lemma static_refl (w : world) : static w w.
Proof. unfold static. repeat split. Qed.

Lemma static_trans (w1 w2 w3 : world) :
  static w1 w2 -> static w2 w3 -> static w1 w3.
Proof.
  unfold static. intros (? & ? & ? & ? & ? & ? & Ha) (? & ? & ? & ? & ? & ? & Hb).
  repeat split; try congruence.
Qed.

Lemma prune_inherited_static (a : Z) (w : world) :
  static w (prune_inherited a w).2.
Proof.
  unfold prune_inherited, static. autounfold with proc.
  destruct (procs (nxt w) !! a) as [r|] eqn:Ha; cbn; rewrite ?Ha; cbn.
  - destruct (ready r) eqn:Hr; cbn; rewrite ?Ha, ?lookup_insert_eq; cbn;
      rewrite ?lookup_insert_eq; cbn.
    + repeat split. intros b. rewrite insert_insert_eq.
      destruct (decide (a = b)) as [<-|Hne].
      * now rewrite lookup_insert_eq, Ha.
      * now rewrite lookup_insert_ne.
    + repeat split.
  - repeat split.
Qed.

Lemma for_each_static (l : list Z) :
  forall w, static w (for_each prune_inherited l w).2.
Proof.
  induction l as [|a l IH]; intros w; cbn.
  - apply static_refl.
  - unfold bind. pose proof (prune_inherited_static a w) as Hs.
    destruct (prune_inherited a w) as [[[]| |] w1]; cbn in *; auto.
    eapply static_trans; [exact Hs | apply IH].
Qed.

(** X13: when [nxt_process_create] returns in the child, the child knows
    itself: the kernel's pid is cached in [nxt_pid] and stored in its
    record, the cached tid is cleared, the engine handles the role's
    signals, and the [types] bitmap, emptied after the fork, holds the
    bit of the role's own type and nothing else - for a type below the
    width of the bitmap, the only ones for which [1U << type] is defined. *)
Theorem nxt_process_create_child_state (process : Z) (pr : nxt_process_t)
    (self : positive) (w w' : world) :
  e_fork (env w) = Child self ->
  heap w !! process = Some pr ->
  0 <= type (init pr) < 32 ->
  nxt_process_create process w = (Ret 0, w') ->
  os_pid (os w') = Z.pos self /\
  nxt_pid (nxt w') = Z.pos self /\
  tid (nxt w') = 0 /\
  sigev (nxt w') = signals (init pr) /\
  types (the_rt w') = Z.shiftl 1 (type (init pr)) /\
  (forall i, 0 <= i ->
     Z.testbit (types (the_rt w')) i = bool_decide (i = type (init pr))) /\
  exists pr', heap w' !! process = Some pr' /\
              pid pr' = Z.pos self /\ ready pr' = true /\ init pr' = init pr.
Proof.
  intros Hside Hp Hty32. unfold nxt_process_create, nxt_runtime_process_each.
  autounfold with proc in *. cbn.
  destruct (fault_of SFork w); cbn; [rewrite Hp; cbn; discriminate|].
  rewrite Hside. cbn. rewrite Hp. cbn.
  match goal with
  | |- context [for_each prune_inherited ?l ?w0] =>
      pose proof (for_each_static l w0) as Hs;
      destruct (for_each prune_inherited l w0) as [o wb]
  end.
  destruct Hs as (He & Ho & Hn & Ht & Hsg & Hrt & Hh). cbn in *.
  destruct o as [[]| |]; cbn; try discriminate.
  specialize (Hh process). unfold heap in Hh. cbn in Hh.
  rewrite lookup_insert_eq in Hh.
  destruct (procs (nxt wb) !! process) as [pb|] eqn:Hpb; cbn in *; [|discriminate].
  injection Hh as Hpid Hports Hready Hcl Hinit.
  match goal with
  | |- context [nxt_process_start process ?w1] =>
      pose proof (nxt_process_start_ok process pb w1) as Hst;
      destruct (nxt_process_start process w1) as [o2 w2]
  end.
  destruct o2 as [[]| |]; cbn; try discriminate.
  destruct (Hst w2 Hpb eq_refl) as (_ & Hty & Hsig & Hnp & Htid & Hop & Hheap & _).
  unfold heap, the_rt in *. cbn in *.
  rewrite Hheap, Hpb. cbn. intros [= <-]. cbn.
  rewrite Hop, Ho, Hnp, Hn, Htid, Ht, Hsig, Hty, lookup_insert_eq, !Hinit.
  assert (types (rt (nxt wb)) = 0) as ->.
  { apply (f_equal types) in Hrt. exact Hrt. }
  rewrite Z.lor_0_l. unfold wrap32. rewrite Zmod_mod.
  fold (wrap32 (Z.shiftl 1 (type (init pr)))). rewrite shiftl_1_small by exact Hty32.
  repeat split.
  - intros i Hi. rewrite Z.shiftl_1_l. case_bool_decide as Hd.
    + subst i. apply Z.pow2_bits_true. lia.
    + apply Z.pow2_bits_false. congruence.
  - eexists. split; [reflexivity|]. cbn. auto.
Qed.

Lemma nxt_process_create_child_state_witness :
  types (the_rt (nxt_process_create 5000 (sample_world [] (Child 4242))).2) = 8.
Proof.
  refine (proj1 (proj2 (proj2 (proj2 (proj2
    (nxt_process_create_child_state 5000
       (mk_process 0 [9001] false 0 router_init [] []) 4242%positive
       (sample_world [] (Child 4242))
       (nxt_process_create 5000 (sample_world [] (Child 4242))).2 _ _ _ _)))))).
  - reflexivity.
  - vm_compute. reflexivity.
  - cbn. lia.
  - vm_compute. reflexivity.
Defined.

(** *** Ports of a process record, further *)

(** Attaching a list of ports: the queue, the owners, the other records. *)
Lemma attach_all_owner (proc : Z) (l : list Z) :
  forall (w : world) (pr : nxt_process_t),
    heap w !! proc = Some pr ->
    Forall (fun p => is_Some (port_heap (nxt w) !! p)) l ->
    exists w' pr',
      for_each (nxt_process_port_add proc) l w = (Ret tt, w') /\
      heap w' !! proc = Some pr' /\
      ports pr' = ports pr ++ l /\
      (forall a, a <> proc -> heap w' !! a = heap w !! a) /\
      (forall q pt, port_heap (nxt w) !! q = Some pt ->
         exists pt',
           port_heap (nxt w') !! q = Some pt' /\
           mem_pool pt' = mem_pool pt /\
           process pt' = if decide (q ∈ l) then Some proc else process pt).
Proof.
  induction l as [|p l IH]; intros w pr Hp Hl.
  - exists w, pr. cbn. rewrite app_nil_r. split; [reflexivity|].
    split; [exact Hp|]. split; [reflexivity|]. split; [reflexivity|].
    intros q pt Hq. exists pt. rewrite decide_False by apply not_elem_of_nil. auto.
  - apply Forall_cons in Hl as [[pt0 Hpt0] Hl].
    destruct (nxt_process_port_add_run proc p pr pt0 w Hp Hpt0)
      as (w1 & Hrun & Hports & Hheap & _).
    destruct (IH w1 (attached p (wrap32 (port_cleanups pr + 1)) pr))
      as (w' & pr' & Hrun' & Hp' & Hq' & Hrest & Hown).
    + rewrite Hheap. apply lookup_insert_eq.
    + rewrite Hports. eapply Forall_impl; [exact Hl|].
      intros q Hq. cbn in Hq |- *. rewrite lookup_insert. case_decide; eauto.
    + exists w', pr'. cbn in Hq'.
      split; [cbn [for_each]; unfold bind at 1; rewrite Hrun; exact Hrun'|].
      split; [exact Hp'|].
      split; [rewrite Hq', <- app_assoc; reflexivity|].
      split; [intros a Ha; rewrite (Hrest a Ha), Hheap; now apply lookup_insert_ne|].
      intros q pt Hq. rewrite Hports in Hown.
      destruct (decide (q = p)) as [->|Hne].
      * destruct (Hown p (mk_port (Some proc) (mem_pool pt0)))
          as (pt' & H1 & H2 & H3); [apply lookup_insert_eq|].
        exists pt'. split; [exact H1|]. cbn in H2, H3.
        assert (pt = pt0) as -> by congruence. split; [exact H2|].
        rewrite decide_True by left. destruct (decide (p ∈ l)); exact H3.
      * destruct (Hown q pt) as (pt' & H1 & H2 & H3);
          [rewrite lookup_insert_ne by auto; exact Hq|].
        exists pt'. split; [exact H1|]. split; [exact H2|]. rewrite H3.
        destruct (decide (q ∈ l)) as [Hin|Hnin].
        -- rewrite decide_True by (right; exact Hin). reflexivity.
        -- rewrite decide_False; [reflexivity|].
           intros Hin. apply elem_of_cons in Hin as [?|?]; contradiction.
Qed.

(** X19: attaching a list of distinct ports whose links are in no queue
    queues them behind the ports the record had, in the order of the
    calls, and makes the record the owner of each of them, while their
    pools, every other port and every other record stay as they were; so
    a queue without repetition stays one, and an attached port is in the
    queue of the record it names as owner and in no other. *)
Theorem attach_ports_membership (proc : Z) (l : list Z) (w : world)
    (pr : nxt_process_t) :
  heap w !! proc = Some pr ->
  Forall (fun p => is_Some (port_heap (nxt w) !! p)) l ->
  NoDup l ->
  (forall p, p ∈ l -> unlinked p w) ->
  exists w' pr',
    for_each (nxt_process_port_add proc) l w = (Ret tt, w') /\
    heap w' !! proc = Some pr' /\
    ports pr' = ports pr ++ l /\
    (NoDup (ports pr) -> NoDup (ports pr')) /\
    (forall a, a <> proc -> heap w' !! a = heap w !! a) /\
    (forall q pt, port_heap (nxt w) !! q = Some pt ->
       exists pt',
         port_heap (nxt w') !! q = Some pt' /\
         mem_pool pt' = mem_pool pt /\
         process pt' = if decide (q ∈ l) then Some proc else process pt) /\
    (forall q a r, q ∈ l -> heap w' !! a = Some r -> q ∈ ports r <-> a = proc).
Proof.
  intros Hp Hl Hnd Hfree.
  destruct (attach_all_owner proc l w pr Hp Hl)
    as (w' & pr' & Hrun & Hp' & Hq & Hrest & Hown).
  exists w', pr'. split; [exact Hrun|]. split; [exact Hp'|]. split; [exact Hq|].
  split; [|split; [exact Hrest|split; [exact Hown|]]].
  - intros Hnd0. rewrite Hq. apply NoDup_app. split; [exact Hnd0|]. split; [|exact Hnd].
    intros x Hx Hxl. exact (Hfree x Hxl proc pr Hp Hx).
  - intros q a r Hin Ha. split.
    + intros Hqr. destruct (decide (a = proc)) as [->|Hne]; [reflexivity|].
      rewrite (Hrest a Hne) in Ha. destruct (Hfree q Hin a r Ha Hqr).
    + intros ->. assert (r = pr') as -> by congruence.
      rewrite Hq. apply elem_of_app. right. exact Hin.
Qed.

Lemma three_ports_unlinked (p : Z) :
  p <> 9001 -> unlinked p three_ports_world.
Proof.
  intros Hp a r H. unfold heap in H. cbn in H.
  repeat (apply lookup_insert_Some in H as [[_ <-] | [_ H]];
          [cbn; rewrite ?not_elem_of_cons; repeat split; auto using not_elem_of_nil|]).
  rewrite lookup_empty in H. discriminate H.
Qed.

Lemma attach_ports_membership_witness :
  exists w' pr',
    for_each (nxt_process_port_add 1000) [9002; 9003] three_ports_world
      = (Ret tt, w') /\
    heap w' !! 1000 = Some pr' /\
    ports pr' = [9002; 9003].
Proof.
  destruct (attach_ports_membership 1000 [9002; 9003] three_ports_world
              (mk_process 100 [] true 0 router_init [1; 2] [3]))
    as (w' & pr' & H1 & H2 & H3 & _).
  - vm_compute. reflexivity.
  - repeat constructor; vm_compute; eauto.
  - repeat constructor; rewrite ?not_elem_of_cons; repeat split;
      try discriminate; apply not_elem_of_nil.
  - intros p Hin. apply three_ports_unlinked. intros ->.
    repeat (apply elem_of_cons in Hin as [Hin|Hin]; [discriminate Hin|]).
    inversion Hin.
  - exists w', pr'. auto.
Defined.

(** *** Connected ports *)

Ltac solve_op :=
  repeat split; intros;
  repeat match goal with
         | H : In _ _ |- _ => cbn in H
         | H : _ \/ _ |- _ => destruct H
         | H : False |- _ => destruct H
         end;
  subst; cbn in *; congruence.

Section ConnectedPortsProperties.

Context {hash : Type}.
Variable hadd : hash -> Z -> Z -> hash.
Variable hremove : hash -> Z -> Z -> hash.
Variable hfind : hash -> Z -> Z -> option Z.

Local Abbreviation add := (nxt_process_connected_port_add hash hadd).
Local Abbreviation remove := (nxt_process_connected_port_remove hash hremove).
Local Abbreviation find := (nxt_process_connected_port_find hash hfind).
Local Abbreviation run := (run_ops hash hadd hremove hfind).

Lemma connected_port_add_run (port : Z) (s : cp_state hash) :
  cp_mutex s = false ->
  let pool := default (cp_next_pool s) (cp_mem_pool s) in
  add port s =
    (Ret tt,
     mk_cp false (Some pool) (hadd (connected_ports s) pool port) (cp_thread s)
           (<[pool := cp_thread s]> (cp_adopted s))
           (if cp_mem_pool s is None then cp_next_pool s + 1 else cp_next_pool s)
           (cp_trace s ++
            [CpLock] ++
            (if cp_mem_pool s is None
             then [CpMpCreate 1024 128 256 32 pool] else []) ++
            [CpThreadAdopt pool (cp_thread s); CpHashAdd pool port; CpUnlock])).
Proof.
  intros Hm. destruct s as [m mp h t ad np tr]. cbn in *. subst m.
  unfold nxt_process_connected_port_add, st_bind, nxt_thread_mutex_lock, nxt_thread_mutex_unlock, nxt_mp_create, nxt_mp_thread_adopt, set_cp_mem_pool, set_connected_ports, get_cp_mem_pool, cp_emit, st_ret. cbn.
  destruct mp as [pool|]; cbn; rewrite <- ?app_assoc; reflexivity.
Qed.

Lemma connected_port_remove_run (port : Z) (s : cp_state hash) :
  cp_mutex s = false ->
  remove port s =
    (Ret tt,
     match cp_mem_pool s with
     | Some pool =>
         mk_cp false (Some pool) (hremove (connected_ports s) pool port)
               (cp_thread s) (<[pool := cp_thread s]> (cp_adopted s))
               (cp_next_pool s)
               (cp_trace s ++ [CpLock; CpThreadAdopt pool (cp_thread s);
                               CpHashRemove pool port; CpUnlock])
     | None =>
         mk_cp false None (connected_ports s) (cp_thread s) (cp_adopted s)
               (cp_next_pool s) (cp_trace s ++ [CpLock; CpUnlock])
     end).
Proof.
  intros Hm. destruct s as [m mp h t ad np tr]. cbn in *. subst m.
  unfold nxt_process_connected_port_remove, st_bind, nxt_thread_mutex_lock, nxt_thread_mutex_unlock, nxt_mp_create, nxt_mp_thread_adopt, set_cp_mem_pool, set_connected_ports, get_cp_mem_pool, cp_emit, st_ret. cbn.
  destruct mp as [pool|]; cbn; rewrite <- ?app_assoc; reflexivity.
Qed.

Lemma connected_port_find_run (pid id : Z) (s : cp_state hash) :
  cp_mutex s = false ->
  find pid id s =
    (Ret (hfind (connected_ports s) pid id),
     mk_cp false (cp_mem_pool s) (connected_ports s) (cp_thread s)
           (cp_adopted s) (cp_next_pool s)
           (cp_trace s ++ [CpLock; CpHashFind pid id; CpUnlock])).
Proof.
  intros Hm. destruct s as [m mp h t ad np tr]. cbn in *. subst m.
  unfold nxt_process_connected_port_find, st_bind, nxt_thread_mutex_lock, nxt_thread_mutex_unlock, nxt_mp_create, nxt_mp_thread_adopt, set_cp_mem_pool, set_connected_ports, get_cp_mem_pool, cp_emit, st_ret. cbn.
  rewrite <- ?app_assoc. reflexivity.
Qed.

Lemma under_mutex_app (l1 l2 : list cp_event) :
  forall held,
    under_mutex held l1 = true ->
    under_mutex held (l1 ++ l2) = under_mutex false l2.
Proof.
  induction l1 as [|e l1 IH]; intros held H; cbn in *.
  - destruct held; [discriminate | reflexivity].
  - destruct e, held; cbn in *; try discriminate; apply IH; exact H.
Qed.

(** One call from a state with the mutex free. *)
Lemma run_op_run (o : cp_op) (s : cp_state hash) :
  cp_mutex s = false ->
  exists s' evs,
    run_op hash hadd hremove hfind o s = (Ret tt, s') /\
    cp_mutex s' = false /\
    cp_trace s' = cp_trace s ++ evs /\
    under_mutex false evs = true /\
    cp_thread s' = cp_thread s /\
    (* the pool *)
    (forall p, cp_mem_pool s = Some p ->
       cp_mem_pool s' = Some p /\ cp_next_pool s' = cp_next_pool s /\
       filter (fun e => is_mp_create e = true) evs = []) /\
    (cp_mem_pool s = None ->
       if is_add o
       then cp_mem_pool s' = Some (cp_next_pool s) /\
            filter (fun e => is_mp_create e = true) evs =
              [CpMpCreate 1024 128 256 32 (cp_next_pool s)]
       else cp_mem_pool s' = None /\ cp_next_pool s' = cp_next_pool s /\
            connected_ports s' = connected_ports s /\
            filter (fun e => is_mp_create e = true) evs = []) /\
    (forall e p, In e evs -> pool_of e = Some p -> cp_mem_pool s' = Some p).
Proof.
  intros Hm. destruct o as [port|port|pid id]; cbn [run_op is_add].
  - rewrite (connected_port_add_run port s Hm).
    destruct (cp_mem_pool s) as [p|] eqn:Hp; eexists _, _;
      (split; [reflexivity|]); cbn; solve_op.
  - rewrite (connected_port_remove_run port s Hm).
    destruct (cp_mem_pool s) as [p|] eqn:Hp; eexists _, _;
      (split; [reflexivity|]); cbn; solve_op.
  - unfold st_bind. rewrite (connected_port_find_run pid id s Hm). cbn.
    eexists _, _. split; [reflexivity|]. cbn. solve_op.
Qed.

(** A run of several calls from a state with the mutex free. *)
Lemma run_ops_run (ops : list cp_op) :
  forall s : cp_state hash,
    cp_mutex s = false ->
    exists s' evs,
      run ops s = (Ret tt, s') /\
      cp_mutex s' = false /\
      cp_trace s' = cp_trace s ++ evs /\
      under_mutex false evs = true /\
      cp_thread s' = cp_thread s /\
      (forall p, cp_mem_pool s = Some p ->
         cp_mem_pool s' = Some p /\ cp_next_pool s' = cp_next_pool s /\
         filter (fun e => is_mp_create e = true) evs = []) /\
      (cp_mem_pool s = None ->
         if existsb is_add ops
         then cp_mem_pool s' = Some (cp_next_pool s) /\
              filter (fun e => is_mp_create e = true) evs =
                [CpMpCreate 1024 128 256 32 (cp_next_pool s)]
         else cp_mem_pool s' = None /\
              connected_ports s' = connected_ports s /\
              filter (fun e => is_mp_create e = true) evs = []) /\
      (forall e p, In e evs -> pool_of e = Some p -> cp_mem_pool s' = Some p).
Proof.
  induction ops as [|o ops IH]; intros s Hm.
  - exists s, []. cbn. rewrite app_nil_r. repeat split; auto.
    intros e p [].
  - destruct (run_op_run o s Hm)
      as (s1 & evs1 & Hrun & Hm1 & Htr & Hu & Hth & Hsome & Hnone & Hpool).
    destruct (IH s1 Hm1)
      as (s' & evs' & Hrun' & Hm' & Htr' & Hu' & Hth' & Hsome' & Hnone' & Hpool').
    exists s', (evs1 ++ evs'). cbn [run_ops existsb]. unfold st_bind at 1.
    rewrite Hrun. split; [exact Hrun'|]. split; [exact Hm'|].
    split; [rewrite Htr', Htr, app_assoc; reflexivity|].
    split; [rewrite (under_mutex_app _ _ _ Hu); exact Hu'|].
    split; [congruence|]. rewrite filter_app.
    split; [|split].
    + intros p Hp. destruct (Hsome p Hp) as (H1 & H2 & H3).
      destruct (Hsome' p H1) as (H4 & H5 & H6).
      rewrite H3, H6. repeat split; congruence.
    + intros Hp. specialize (Hnone Hp). destruct (is_add o); cbn [orb].
      * destruct Hnone as (H1 & H2).
        destruct (Hsome' _ H1) as (H4 & _ & H6). rewrite H2, H6. auto.
      * destruct Hnone as (H1 & H2 & H3 & H4). specialize (Hnone' H1).
        rewrite H4. cbn [app]. rewrite <- H2, <- H3. exact Hnone'.
    + intros e p Hin He. apply in_app_or in Hin as [Hin|Hin].
      * specialize (Hpool e p Hin He). apply (Hsome' p Hpool).
      * exact (Hpool' e p Hin He).
Qed.

(** X14: every run of the three functions from a state with the mutex
    free returns with the mutex free; in its trace locks and unlocks
    alternate and every access to the pool or to the hash lies between
    a lock and its unlock. *)
Theorem connected_ports_under_mutex (ops : list cp_op) (s : cp_state hash) :
  cp_mutex s = false ->
  exists s',
    run ops s = (Ret tt, s') /\
    cp_mutex s' = false /\
    under_mutex false (drop (length (cp_trace s)) (cp_trace s')) = true.
Proof.
  intros Hm.
  destruct (run_ops_run ops s Hm) as (s' & evs & Hrun & Hm' & Htr & Hu & _).
  exists s'. rewrite Htr, drop_app_length. auto.
Qed.

(** X15: the registry's pool is created lazily and once.  A run that
    starts without a pool creates one exactly when it contains an add,
    with the fixed sizes of the source, at the first add; a run that
    starts with a pool creates none and keeps it; and every pool and hash
    call of the run names the pool the registry holds at the end. *)
Theorem connected_ports_single_pool (ops : list cp_op) (s : cp_state hash) :
  cp_mutex s = false ->
  let s' := (run ops s).2 in
  let evs := drop (length (cp_trace s)) (cp_trace s') in
  let creates := filter (fun e => is_mp_create e = true) evs in
  (forall p, cp_mem_pool s = Some p -> cp_mem_pool s' = Some p /\ creates = []) /\
  (cp_mem_pool s = None ->
     if existsb is_add ops
     then cp_mem_pool s' = Some (cp_next_pool s) /\
          creates = [CpMpCreate 1024 128 256 32 (cp_next_pool s)]
     else cp_mem_pool s' = None /\ creates = []) /\
  (forall e p, In e evs -> pool_of e = Some p -> cp_mem_pool s' = Some p).
Proof.
  intros Hm.
  destruct (run_ops_run ops s Hm)
    as (s' & evs & Hrun & _ & Htr & _ & _ & Hsome & Hnone & Hpool).
  cbn zeta. rewrite Hrun. cbn [snd]. rewrite Htr, drop_app_length.
  split; [|split; [|exact Hpool]].
  - intros p Hp. destruct (Hsome p Hp) as (? & _ & ?). auto.
  - intros Hp. specialize (Hnone Hp).
    destruct (existsb is_add ops); tauto.
Qed.

(** X16: removing and searching in a registry that never had a port
    added - it has no pool - changes nothing but the trace: the hash is
    not touched by any remove, and no pool is created. *)
Theorem connected_ports_untouched_without_add (ops : list cp_op) (s : cp_state hash) :
  cp_mutex s = false ->
  cp_mem_pool s = None ->
  existsb is_add ops = false ->
  let s' := (run ops s).2 in
  connected_ports s' = connected_ports s /\
  cp_mem_pool s' = None /\
  forall e, In e (drop (length (cp_trace s)) (cp_trace s')) ->
    exists pid id, e = CpLock \/ e = CpUnlock \/ e = CpHashFind pid id.
Proof.
  intros Hm Hp Hops.
  destruct (run_ops_run ops s Hm)
    as (s' & evs & Hrun & _ & Htr & _ & _ & _ & Hnone & Hpool).
  cbn zeta. rewrite Hrun. cbn [snd]. rewrite Htr, drop_app_length.
  specialize (Hnone Hp). rewrite Hops in Hnone. destruct Hnone as (H1 & H2 & _).
  split; [exact H2|]. split; [exact H1|].
  intros e Hin. specialize (Hpool e).
  destruct e; cbn in Hpool; try (specialize (Hpool _ Hin eq_refl); congruence).
  - exists 0, 0. auto.
  - exists 0, 0. auto.
  - eexists _, _. eauto.
Qed.

(** X17: the wrappers hand the hash through.  With a hash in which a
    search finds what was just added and misses what was just removed,
    a find after an add of the port with that pid and id returns the
    port, and a find after an add and a remove of it returns [NULL]. *)
Theorem connected_port_add_find_remove (key : Z -> Z * Z) (port : Z)
    (s : cp_state hash) :
  (forall h pool, hfind (hadd h pool port) (key port).1 (key port).2 = Some port) ->
  (forall h pool, hfind (hremove h pool port) (key port).1 (key port).2 = None) ->
  cp_mutex s = false ->
  (st_bind (add port) (fun _ => find (key port).1 (key port).2) s).1
    = Ret (Some port) /\
  (st_bind (add port)
     (fun _ => st_bind (remove port)
                 (fun _ => find (key port).1 (key port).2)) s).1
    = Ret None.
Proof.
  intros Hadd Hrem Hm. unfold st_bind.
  rewrite (connected_port_add_run port s Hm). cbv beta iota zeta.
  rewrite connected_port_find_run by reflexivity.
  rewrite connected_port_remove_run by reflexivity. cbv beta iota zeta.
  cbn [cp_mem_pool]. cbv beta iota zeta.
  rewrite connected_port_find_run by reflexivity. cbn.
  rewrite Hadd, Hrem. auto.
Qed.

End ConnectedPortsProperties.

Lemma connected_ports_under_mutex_witness :
  exists s',
    run_ops _ sample_hash_add sample_hash_remove sample_hash_find
      [OpRemove 105; OpAdd 105; OpFind 1 5; OpAdd 207; OpRemove 105]
      fresh_registry = (Ret tt, s') /\
    cp_mutex s' = false /\
    under_mutex false (drop (length (cp_trace fresh_registry)) (cp_trace s')) = true.
Proof.
  apply (connected_ports_under_mutex sample_hash_add sample_hash_remove
           sample_hash_find). reflexivity.
Defined.

Lemma connected_ports_single_pool_witness :
  cp_mem_pool
    (run_ops _ sample_hash_add sample_hash_remove sample_hash_find
       [OpRemove 105; OpAdd 105; OpFind 1 5; OpAdd 207; OpRemove 105]
       fresh_registry).2 = Some 500.
Proof.
  refine (proj1 (proj1 (proj2 (connected_ports_single_pool sample_hash_add
            sample_hash_remove sample_hash_find
            [OpRemove 105; OpAdd 105; OpFind 1 5; OpAdd 207; OpRemove 105]
            fresh_registry _)) _)); reflexivity.
Defined.

Lemma connected_ports_untouched_without_add_witness :
  connected_ports
    (run_ops _ sample_hash_add sample_hash_remove sample_hash_find
       [OpRemove 105; OpFind 1 5; OpRemove 207] fresh_registry).2 = ∅.
Proof.
  refine (proj1 (connected_ports_untouched_without_add sample_hash_add
            sample_hash_remove sample_hash_find
            [OpRemove 105; OpFind 1 5; OpRemove 207] fresh_registry _ _ _));
    reflexivity.
Defined.

Lemma connected_port_add_find_remove_witness :
  (st_bind (nxt_process_connected_port_add _ sample_hash_add 105)
     (fun _ => nxt_process_connected_port_find _ sample_hash_find 1 5)
     fresh_registry).1 = Ret (Some 105).
Proof.
  refine (proj1 (connected_port_add_find_remove sample_hash_add sample_hash_remove
            sample_hash_find port_key 105 fresh_registry _ _ _)).
  - intros h pool. apply lookup_insert_eq.
  - intros h pool. apply lookup_delete_eq.
  - reflexivity.
Defined.

(** *** Sleeping *)

(** X18: for a non-negative number of nanoseconds [nxt_nanosleep] hands
    [nanosleep] one request, a valid one - the nanosecond part lies in
    [0, 10^9) and the seconds are not negative - that denotes exactly the
    time asked for. *)
Theorem nxt_nanosleep_request (ns : Z) (reqs : list (Z * Z)) :
  0 <= ns ->
  exists sec nsec,
    nxt_nanosleep ns reqs = (Ret tt, reqs ++ [(sec, nsec)]) /\
    0 <= sec /\ 0 <= nsec < 1000000000 /\
    sec * 1000000000 + nsec = ns.
Proof.
  intros Hns. unfold nxt_nanosleep. eexists _, _. split; [reflexivity|].
  pose proof (Z.quot_rem' ns 1000000000) as Hqr.
  pose proof (Z.rem_bound_pos ns 1000000000 Hns ltac:(lia)) as Hr.
  pose proof (Z.quot_pos ns 1000000000 Hns ltac:(lia)) as Hq.
  lia.
Qed.

Lemma nxt_nanosleep_request_witness :
  nxt_nanosleep 2500000000 [] = (Ret tt, [(2, 500000000)]).
Proof.
  destruct (nxt_nanosleep_request 2500000000 []) as (sec & nsec & H & _);
    [lia|].
  reflexivity.
Defined.
